(** * Review-tracking dashboard API: a shallow embedding of web_server_simple.py

    The Flask application serves demo data: every view function builds a
    small Python value from constants, the wall clock and the [random]
    module, and hands it to [jsonify].  The embedding keeps that shape:

    - Python floats are IEEE 754 binary64 values ([spec_float] with
      precision 53 and maximal exponent 1024), so that [int(total * 0.45)],
      [rating >= 4.5] and [round(x, 2)] are computed bit for bit;
    - [datetime] values are records of calendar fields, with the proleptic
      Gregorian ordinal arithmetic of the [datetime] module;
    - the [random] module is a stream of raw draws threaded through a state
      and exception monad, each library call mapping one raw draw onto the
      range the call is documented to return;
    - a view function is a computation in that monad, and [handle] is what
      Flask does with its result. *)

From Stdlib Require Import ZArith QArith Qround Qabs Qpower Lia Lqa.
From Stdlib Require Import List Sorted String Ascii Bool.
From Corelib Require Import SpecFloat.
From stdpp Require Import gmap strings.

Open Scope Z_scope.

(* ===================================================================== *)
(** ** Python floats *)
(* ===================================================================== *)

Module Float64.

Definition prec : Z := 53.
Definition emax : Z := 1024.

Definition add : spec_float -> spec_float -> spec_float := SFadd prec emax.
Definition sub : spec_float -> spec_float -> spec_float := SFsub prec emax.
Definition mul : spec_float -> spec_float -> spec_float := SFmul prec emax.
Definition div : spec_float -> spec_float -> spec_float := SFdiv prec emax.
Definition neg : spec_float -> spec_float := SFopp.

(** [x < y], [x <= y], [x > y] and [x >= y] on floats. *)
Definition ltb (x y : spec_float) : bool := SFltb x y.
Definition leb (x y : spec_float) : bool := SFleb x y.
Definition gtb (x y : spec_float) : bool := SFltb y x.
Definition geb (x y : spec_float) : bool := SFleb y x.

(** [float(n)] for a Python int: rounded to nearest, exact below [2^53]. *)
Definition of_int (n : Z) : spec_float := binary_normalize prec emax n 0 false.

(** [k * 2^e] as a float, exact when [k] has at most 53 bits. *)
Definition ldexp (k e : Z) : spec_float := binary_normalize prec emax k e false.

(** The float a decimal literal [n/d] denotes ([d] a power of ten): both
    [n] and [d] are exact floats here, and the division rounds their
    quotient to the nearest float, as the parser of literals does. *)
Definition decimal (n d : Z) : spec_float := div (of_int n) (of_int d).

Fixpoint uint_length (u : Decimal.uint) : nat :=
  match u with
  | Decimal.Nil => O
  | Decimal.D0 u | Decimal.D1 u | Decimal.D2 u | Decimal.D3 u | Decimal.D4 u
  | Decimal.D5 u | Decimal.D6 u | Decimal.D7 u | Decimal.D8 u | Decimal.D9 u =>
      S (uint_length u)
  end.

(** Reading of a literal such as [4.3] or [-0.2]: integer part [i],
    fractional digits [f], value [i.f]. *)
Definition of_number (n : Number.number) : option spec_float :=
  match n with
  | Number.Decimal (Decimal.Decimal (Decimal.Pos u) f) =>
      Some (decimal (Z.of_uint (Decimal.app u f)) (10 ^ Z.of_nat (uint_length f)))
  | Number.Decimal (Decimal.Decimal (Decimal.Neg u) f) =>
      Some (neg (decimal (Z.of_uint (Decimal.app u f)) (10 ^ Z.of_nat (uint_length f))))
  | _ => None
  end.

Definition to_number (x : spec_float) : option Number.number := None.

(** [2^e] as a rational, and the exact rational value of a finite float
    (0 for the others). *)
Definition pow2 (e : Z) : Q := Qpower 2 e.

Definition to_Q (x : spec_float) : Q :=
  match x with
  | S754_finite s m e => (inject_Z (cond_Zopp s (Zpos m)) * pow2 e)%Q
  | _ => 0%Q
  end.

(** [int(x)]: truncation toward zero; [None] stands for the exception
    Python raises on an infinity or a NaN. *)
Definition trunc (x : spec_float) : option Z :=
  match x with
  | S754_zero _ => Some 0
  | S754_finite s m e =>
      Some (cond_Zopp s
              (match e with
               | Zneg p => Zpos m / 2 ^ Zpos p
               | _ => Zpos m * 2 ^ e
               end))
  | _ => None
  end.

(** Rounding of a rational to the nearest integer, ties to even. *)
Definition round_half_even (q : Q) : Z :=
  let f := Qfloor q in
  match Qcompare (q - inject_Z f) (1 # 2) with
  | Lt => f
  | Gt => f + 1
  | Eq => if Z.even f then f else f + 1
  end.

(** [round(x, ndigits)] for [0 <= ndigits]: the exact value of [x] is
    rounded to [ndigits] decimals, ties to even, and the decimal obtained
    is read back as a float; a result of zero keeps the sign of [x];
    infinities and NaN round to themselves. *)
Definition round_ndigits (x : spec_float) (ndigits : Z) : spec_float :=
  match x with
  | S754_finite s _ _ =>
      let scale := 10 ^ ndigits in
      let n := round_half_even (to_Q x * inject_Z scale) in
      if n =? 0 then S754_zero s else decimal n scale
  | _ => x
  end.

End Float64.

Declare Scope float64_scope.
Delimit Scope float64_scope with f64.
Number Notation spec_float Float64.of_number Float64.to_number : float64_scope.

(* ===================================================================== *)
(** ** Python values handed to [jsonify] *)
(* ===================================================================== *)

#[local] Set Warnings "-register-all".

Inductive json : Type :=
| JBool (b : bool)
| JInt (n : Z)
| JFloat (x : spec_float)
| JStr (s : string)
| JList (l : list json)
| JDict (items : list (string * json)).

(** [d[k]] on a dict kept as its items in insertion order. *)
Fixpoint dict_get (k : string) (items : list (string * json)) : option json :=
  match items with
  | [] => None
  | (k', v) :: rest => if String.eqb k k' then Some v else dict_get k rest
  end.

Definition field (k : string) (v : json) : option json :=
  match v with
  | JDict items => dict_get k items
  | _ => None
  end.

(* ===================================================================== *)
(** ** The [datetime] module *)
(* ===================================================================== *)

Module Calendar.

Record datetime : Type := mk_datetime {
  year : Z; month : Z; day : Z;
  hour : Z; minute : Z; second : Z; microsecond : Z
}.

Definition MAXORDINAL : Z := 3652059.

Definition DAYS_IN_MONTH : list Z :=
  [-1; 31; 28; 31; 30; 31; 30; 31; 31; 30; 31; 30; 31].

Definition DAYS_BEFORE_MONTH : list Z :=
  [-1; 0; 31; 59; 90; 120; 151; 181; 212; 243; 273; 304; 334].

Definition index (l : list Z) (i : Z) : Z := nth (Z.to_nat i) l (-1).

Definition is_leap (y : Z) : bool :=
  (y mod 4 =? 0) && (negb (y mod 100 =? 0) || (y mod 400 =? 0)).

Definition days_before_year (y0 : Z) : Z :=
  let y := y0 - 1 in
  y * 365 + y / 4 - y / 100 + y / 400.

Definition days_in_month (y m : Z) : Z :=
  if (m =? 2) && is_leap y then 29 else index DAYS_IN_MONTH m.

Definition days_before_month (y m : Z) : Z :=
  index DAYS_BEFORE_MONTH m + (if (2 <? m) && is_leap y then 1 else 0).

Definition ymd2ord (y m d : Z) : Z :=
  days_before_year y + days_before_month y m + d.

Definition DI400Y : Z := 146097.
Definition DI100Y : Z := 36524.
Definition DI4Y : Z := 1461.

Definition ord2ymd (n0 : Z) : Z * Z * Z :=
  let n := n0 - 1 in
  let n400 := n / DI400Y in
  let n := n mod DI400Y in
  let y := n400 * 400 + 1 in
  let n100 := n / DI100Y in
  let n := n mod DI100Y in
  let n4 := n / DI4Y in
  let n := n mod DI4Y in
  let n1 := n / 365 in
  let n := n mod 365 in
  let y := y + n100 * 100 + n4 * 4 + n1 in
  if (n1 =? 4) || (n100 =? 4) then (y - 1, 12, 31)
  else
    let leapyear := (n1 =? 3) && (negb (n4 =? 24) || (n100 =? 3)) in
    let m := Z.shiftr (n + 50) 5 in
    let preceding :=
      index DAYS_BEFORE_MONTH m + (if (2 <? m) && leapyear then 1 else 0) in
    if n <? preceding then
      let m := m - 1 in
      let preceding :=
        preceding
        - (index DAYS_IN_MONTH m + (if (m =? 2) && leapyear then 1 else 0)) in
      (y, m, n - preceding + 1)
    else (y, m, n - preceding + 1).

Definition toordinal (t : datetime) : Z := ymd2ord (year t) (month t) (day t).

(** [t - timedelta(days=k)]: the date moves by whole days on the ordinal
    line and the time of day is kept; [None] is the [OverflowError] raised
    when the result leaves the range of dates. *)
Definition sub_days (t : datetime) (k : Z) : option datetime :=
  let o := toordinal t - k in
  if (0 <? o) && (o <=? MAXORDINAL) then
    let '(y, m, d) := ord2ymd o in
    Some (mk_datetime y m d (hour t) (minute t) (second t) (microsecond t))
  else None.

Definition digit (n : Z) : ascii := ascii_of_nat (48 + Z.to_nat (n mod 10)).

(** [n] written with exactly [w] decimal digits ([0 <= n < 10^w]). *)
Fixpoint zfill (w : nat) (n : Z) : string :=
  match w with
  | O => EmptyString
  | S w' => zfill w' (n / 10) +:+ String (digit n) EmptyString
  end.

Definition MONTHNAMES : list string :=
  [""; "Jan"; "Feb"; "Mar"; "Apr"; "May"; "Jun";
   "Jul"; "Aug"; "Sep"; "Oct"; "Nov"; "Dec"]%string.

(** [t.strftime('%b %d')]. *)
Definition strftime_b_d (t : datetime) : string :=
  nth (Z.to_nat (month t)) MONTHNAMES ""%string +:+ " " +:+ zfill 2 (day t).

(** [n] in decimal without padding ([0 <= n]), as C's [%d] prints it; the
    fuel is an upper bound of the number of digits. *)
Fixpoint decimal_fuel (fuel : nat) (n : Z) : string :=
  match fuel with
  | O => EmptyString
  | S fuel' =>
      (if n <? 10 then EmptyString else decimal_fuel fuel' (n / 10))
      +:+ String (digit n) EmptyString
  end.

Definition decimal_string (n : Z) : string :=
  decimal_fuel (S (Z.to_nat (Z.log2 n))) n.

(** [t.strftime('%Y%m%d')]. The format goes to the C library's [strftime],
    and glibc prints [%Y] as the year in decimal without padding: a year
    below 1000 has fewer than four digits ([isoformat], written in Python
    with [%04d], pads it). [%m] and [%d] have two digits. *)
Definition strftime_Ymd (t : datetime) : string :=
  decimal_string (year t) +:+ zfill 2 (month t) +:+ zfill 2 (day t).

(** [t.isoformat()]: the microseconds are printed only when non-zero. *)
Definition isoformat (t : datetime) : string :=
  zfill 4 (year t) +:+ "-" +:+ zfill 2 (month t) +:+ "-" +:+ zfill 2 (day t)
  +:+ "T" +:+ zfill 2 (hour t) +:+ ":" +:+ zfill 2 (minute t)
  +:+ ":" +:+ zfill 2 (second t)
  +:+ (if microsecond t =? 0 then ""%string
       else "."%string +:+ zfill 6 (microsecond t)).

(** The values a [datetime] object can hold. *)
Definition valid (t : datetime) : Prop :=
  1 <= year t <= 9999 /\ 1 <= month t <= 12
  /\ 1 <= day t <= days_in_month (year t) (month t)
  /\ 0 <= hour t < 24 /\ 0 <= minute t < 60 /\ 0 <= second t < 60
  /\ 0 <= microsecond t < 1000000.

End Calendar.

(* ===================================================================== *)
(** ** Effects of a view function: clock, random source, exceptions *)
(* ===================================================================== *)

(** What a request can observe outside its own arguments: the reading of
    the wall clock, and the random source, a stream of raw draws of which
    [consumed] have been used so far (the state of the [random] module,
    the only thing a view function advances). *)
Record World : Type := mk_world {
  clock : Calendar.datetime;
  entropy : nat -> Z;
  consumed : nat
}.

Inductive exn : Type := OverflowError | ValueError | KeyError.

Definition Py (A : Type) : Type := World -> (exn + A) * World.

#[global] Instance Py_ret : MRet Py := fun A (a : A) w => (inr a, w).

#[global] Instance Py_bind : MBind Py := fun A B (f : A -> Py B) (m : Py A) w =>
  match m w with
  | (inl e, w') => (inl e, w')
  | (inr a, w') => f a w'
  end.

Definition raise {A : Type} (e : exn) : Py A := fun w => (inl e, w).

(** The next raw draw of the random source. *)
Definition draw : Py Z := fun w =>
  (inr (entropy w (consumed w)), mk_world (clock w) (entropy w) (S (consumed w))).

Module Random.

(** The value [random.random()] makes of a raw draw: [k / 2^53] for a
    53-bit [k], a float of [[0, 1)]. *)
Definition unit_of_raw (raw : Z) : spec_float :=
  Float64.ldexp (raw mod 2 ^ 53) (-53).

(** The value [random.randint(a, b)] makes of a raw draw, [a <= b]. *)
Definition int_of_raw (a b raw : Z) : Z := a + raw mod (b - a + 1).

Definition random : Py spec_float :=
  raw ← draw; mret (unit_of_raw raw).

(** [random.randint(a, b)]: an integer of [[a, b]], ends included. *)
Definition randint (a b : Z) : Py Z :=
  if (b <? a)%Z then raise ValueError
  else raw ← draw; mret (int_of_raw a b raw).

(** [random.uniform(a, b)] is [a + (b - a) * random()]. *)
Definition uniform (a b : spec_float) : Py spec_float :=
  r ← random; mret (Float64.add a (Float64.mul (Float64.sub b a) r)).

End Random.

(** [datetime.now()]. *)
Definition datetime_now : Py Calendar.datetime := fun w => (inr (clock w), w).

(** [t - timedelta(days=k)]. *)
Definition minus_days (t : Calendar.datetime) (k : Z) : Py Calendar.datetime :=
  match Calendar.sub_days t k with
  | Some t' => mret t'
  | None => raise OverflowError
  end.

(** [int(x)] on a float. *)
Definition int_of_float (x : spec_float) : Py Z :=
  match Float64.trunc x with
  | Some n => mret n
  | None => raise OverflowError
  end.

(** [d[k]] on a dict. *)
Definition getitem (items : list (string * json)) (k : string) : Py json :=
  match dict_get k items with
  | Some v => mret v
  | None => raise KeyError
  end.

(** [range(n)]. *)
Definition range (n : Z) : list Z := map Z.of_nat (seq 0 (Z.to_nat n)).

(* ===================================================================== *)
(** ** What Flask does around a view function *)
(* ===================================================================== *)

Module Flask.

Inductive body : Type :=
| Html (s : string)
| Json (v : json).

Record Response : Type := mk_response {
  status : Z;
  mimetype : string;
  content : body
}.

(** [jsonify(v)]: a [200] response of type [application/json]. *)
Definition jsonify (v : json) : Response :=
  mk_response 200 "application/json" (Json v).

(** A view function returns a string or a response object. *)
Inductive view_result : Type :=
| ViewStr (s : string)
| ViewResponse (r : Response).

(** A returned string becomes a [200] response of type [text/html]. *)
Definition make_response (v : view_result) : Response :=
  match v with
  | ViewStr s => mk_response 200 "text/html" (Html s)
  | ViewResponse r => r
  end.

(** The answer to an exception that escapes a view function. *)
Definition internal_server_error : Response :=
  mk_response 500 "text/html" (Html "Internal Server Error").

(** The answer to a path no rule matches. *)
Definition not_found : Response :=
  mk_response 404 "text/html" (Html "Not Found").

Definition is_json (r : Response) : bool :=
  match content r with
  | Json _ => true
  | Html _ => false
  end.

End Flask.

(* ===================================================================== *)
(** ** The application *)
(* ===================================================================== *)

Module App.

Import Flask.
#[local] Open Scope string_scope.

Definition dq : string := String "034"%char EmptyString.

(** Demo data generator. *)
Definition generate_demo_data : Py (list (string * json)) :=
  let base_reviews := 48532 in
  let base_rating := 4.3%f64 in
  daily_change ← Random.randint (-50) 250;
  rating_change ← Random.uniform (-0.2)%f64 0.1%f64;
  let total_reviews := base_reviews + daily_change in
  let average_rating :=
    Float64.round_ndigits (Float64.add base_rating rating_change) 2 in
  reviews_removed_today ← Random.randint 0 30;
  reviews_added_24h ← Random.randint 100 300;
  change_7d_reviews ← Random.randint 800 1500;
  u ← Random.uniform (-0.3)%f64 0.2%f64;
  let change_7d_rating := Float64.round_ndigits u 2 in
  mret [("metrics",
         JDict [("total_locations", JInt 120);
                ("total_reviews", JInt total_reviews);
                ("average_rating", JFloat average_rating);
                ("reviews_removed_today", JInt reviews_removed_today);
                ("reviews_added_24h", JInt reviews_added_24h);
                ("change_7d_reviews", JInt change_7d_reviews);
                ("change_7d_rating", JFloat change_7d_rating)])].

Definition home_page : string :=
  ("
    <h1>Law Firm Review Tracking API</h1>
    <p>Dashboard API is running!</p>
    <p>Connect your dashboard to: <code>https://[this-server-url]</code></p>
    <br>
    <h3>Available Endpoints:</h3>
    <ul>
        <li><a href=" +:+ dq +:+ "/api/metrics" +:+ dq +:+ ">/api/metrics</a> - Current metrics</li>
        <li><a href=" +:+ dq +:+ "/api/trends/7d" +:+ dq +:+ ">/api/trends/7d</a> - 7-day trends</li>
        <li><a href=" +:+ dq +:+ "/api/locations/top" +:+ dq +:+ ">/api/locations/top</a> - Top locations</li>
        <li><a href=" +:+ dq +:+ "/api/locations/attention" +:+ dq +:+ ">/api/locations/attention</a> - Locations needing attention</li>
        <li><a href=" +:+ dq +:+ "/api/rating-distribution" +:+ dq +:+ ">/api/rating-distribution</a> - Rating distribution</li>
    </ul>
    ").

(** Home endpoint. *)
Definition home : Py view_result := mret (ViewStr home_page).

(** Get current metrics for dashboard. *)
Definition get_metrics : Py view_result :=
  data ← generate_demo_data;
  metrics ← getitem data "metrics";
  mret (ViewResponse (jsonify metrics)).

Definition DAYS : gmap string Z :=
  {[ "24h" := 1; "7d" := 7; "30d" := 30; "90d" := 90 ]}.

(** The body of [for i in range(days)], run over the indices left. *)
Fixpoint trends_loop (today : Calendar.datetime) (days : Z) (indices : list Z)
    (trends : list json) : Py (list json) :=
  match indices with
  | [] => mret trends
  | i :: indices' =>
      date ← minus_days today (days - i - 1);
      reviews_added ← Random.randint 30 80;
      reviews_removed ← Random.randint 0 10;
      u ← Random.uniform (-0.2)%f64 0.2%f64;
      let average_rating := Float64.round_ndigits (Float64.add 4.3%f64 u) 2 in
      trends_loop today days indices'
        (trends ++ [JDict [("date", JStr (Calendar.strftime_b_d date));
                           ("reviews_added", JInt reviews_added);
                           ("reviews_removed", JInt reviews_removed);
                           ("average_rating", JFloat average_rating)]])
  end.

(** Get trend data for specified period. *)
Definition get_trends (period : string) : Py view_result :=
  let days := default 7 (DAYS !! period) in
  today ← datetime_now;
  trends ← trends_loop today days (range days) [];
  mret (ViewResponse (jsonify (JList trends))).

Definition cities : list (string * string * spec_float * Z) :=
  [("Miami Downtown", "Miami", 4.8%f64, 1245);
   ("Orlando Central", "Orlando", 4.7%f64, 892);
   ("Tampa Bay", "Tampa", 4.6%f64, 756);
   ("Jacksonville North", "Jacksonville", 4.5%f64, 623);
   ("Fort Lauderdale", "Fort Lauderdale", 4.5%f64, 589);
   ("West Palm Beach", "West Palm Beach", 4.4%f64, 456);
   ("Tallahassee Main", "Tallahassee", 4.4%f64, 412);
   ("Gainesville", "Gainesville", 4.3%f64, 389);
   ("Naples", "Naples", 4.3%f64, 356);
   ("Sarasota", "Sarasota", 4.2%f64, 298)].

Fixpoint top_loop (rows : list (string * string * spec_float * Z))
    (locations : list json) : Py (list json) :=
  match rows with
  | [] => mret locations
  | (name, city, rating, reviews) :: rows' =>
      change ← Random.randint (-5) 20;
      let status :=
        (if Float64.geb rating 4.5%f64 then "Excellent"
         else if Float64.geb rating 4.0%f64 then "Good"
         else "Monitor") in
      top_loop rows'
        (locations ++ [JDict [("name", JStr ("Law Firm - " +:+ name));
                              ("city", JStr (city +:+ ", FL"));
                              ("rating", JFloat rating);
                              ("total_reviews", JInt reviews);
                              ("change", JInt change);
                              ("status", JStr status)]])
  end.

(** Get top performing locations. *)
Definition get_top_locations : Py view_result :=
  locations ← top_loop (firstn 10 cities) [];
  mret (ViewResponse (jsonify (JList locations))).

Definition problem_locations : list (string * string * spec_float * Z * string) :=
  [("Lakeland Branch", "Lakeland", 3.2%f64, 8, "Multiple Reviews Removed");
   ("Coral Gables", "Coral Gables", 3.5%f64, 3, "Rating Drop");
   ("Fort Myers", "Fort Myers", 3.4%f64, 2, "Low Rating");
   ("Clearwater", "Clearwater", 3.6%f64, 4, "Reviews Removed");
   ("Ocala", "Ocala", 3.3%f64, 1, "Low Rating")].

Fixpoint attention_loop (rows : list (string * string * spec_float * Z * string))
    (locations : list json) : Py (list json) :=
  match rows with
  | [] => mret locations
  | (name, city, rating, removed, issue) :: rows' =>
      let priority :=
        (if (5 <? removed)%Z || Float64.ltb rating 3.3%f64 then "Urgent"
         else if Float64.ltb rating 3.5%f64 then "High"
         else "Medium") in
      attention_loop rows'
        (locations ++ [JDict [("name", JStr ("Law Firm - " +:+ name));
                              ("city", JStr city);
                              ("issue", JStr issue);
                              ("rating", JFloat rating);
                              ("reviews_removed", JInt removed);
                              ("priority", JStr priority)]])
  end.

(** Get locations needing attention. *)
Definition get_attention_locations : Py view_result :=
  locations ← attention_loop problem_locations [];
  mret (ViewResponse (jsonify (JList locations))).

(** Get star rating distribution. *)
Definition get_rating_distribution : Py view_result :=
  let total := 48532 in
  s5 ← int_of_float (Float64.mul (Float64.of_int total) 0.45%f64);
  s4 ← int_of_float (Float64.mul (Float64.of_int total) 0.30%f64);
  s3 ← int_of_float (Float64.mul (Float64.of_int total) 0.15%f64);
  s2 ← int_of_float (Float64.mul (Float64.of_int total) 0.07%f64);
  s1 ← int_of_float (Float64.mul (Float64.of_int total) 0.03%f64);
  let distribution :=
    [("5_star", JInt s5); ("4_star", JInt s4); ("3_star", JInt s3);
     ("2_star", JInt s2); ("1_star", JInt s1)] in
  mret (ViewResponse (jsonify (JDict distribution))).

(** Get recent alerts. *)
Definition get_recent_alerts : Py view_result :=
  r ← Random.random;
  if Float64.gtb r 0.7%f64 then
    t ← datetime_now;
    mret (ViewResponse (jsonify (JList
      [JDict [("date", JStr (Calendar.isoformat t));
              ("location", JStr "Law Firm - Lakeland Branch");
              ("type", JStr "reviews_removed");
              ("message", JStr "8 reviews removed in the last 24 hours")]])))
  else mret (ViewResponse (jsonify (JList []))).

(** Trigger Excel report generation. *)
Definition export_excel : Py view_result :=
  t ← datetime_now;
  mret (ViewResponse (jsonify (JDict
    [("success", JBool true);
     ("message", JStr "Report generation simulated");
     ("filename", JStr ("review_report_" +:+ Calendar.strftime_Ymd t +:+ ".xlsx"))]))).

(** The routes [@app.route] registers, each with its URL rule. *)
Inductive Route : Type :=
| Home
| Metrics
| Trends (period : string)
| TopLocations
| AttentionLocations
| RatingDistribution
| RecentAlerts
| ExportExcel.

Definition view (r : Route) : Py view_result :=
  match r with
  | Home => home
  | Metrics => get_metrics
  | Trends period => get_trends period
  | TopLocations => get_top_locations
  | AttentionLocations => get_attention_locations
  | RatingDistribution => get_rating_distribution
  | RecentAlerts => get_recent_alerts
  | ExportExcel => export_excel
  end.

(** A [GET] request on a route: the view function runs, and what it
    returns or raises becomes the response. *)
Definition handle (r : Route) (w : World) : Response * World :=
  match view r w with
  | (inr v, w') => (make_response v, w')
  | (inl _, w') => (internal_server_error, w')
  end.

End App.

(* ===================================================================== *)
(** ** Vocabulary of the statements *)
(* ===================================================================== *)

(** The world after [n] more draws: the clock and the stream are the same,
    the position in the stream has moved. *)
Definition advance (n : nat) (w : World) : World :=
  mk_world (clock w) (entropy w) (n + consumed w).

(** A clock reading every route can be served at: a valid [datetime] from
    which the longest window, 90 days, does not reach before the first
    date of the calendar. *)
Definition clock_ok (t : Calendar.datetime) : Prop :=
  Calendar.valid t /\ 90 <= Calendar.toordinal t.

(** The number of entries the spec gives for a period. *)
Definition expected_entries (p : string) : Z :=
  if String.eqb p "24h" then 1
  else if String.eqb p "7d" then 7
  else if String.eqb p "30d" then 30
  else if String.eqb p "90d" then 90
  else 7.

(** The dict [generate_demo_data] stores under [metrics]. *)
Definition metrics_dict (total_reviews : Z) (average_rating : spec_float)
    (removed added change : Z) (change_rating : spec_float) : json :=
  JDict [("total_locations", JInt 120);
         ("total_reviews", JInt total_reviews);
         ("average_rating", JFloat average_rating);
         ("reviews_removed_today", JInt removed);
         ("reviews_added_24h", JInt added);
         ("change_7d_reviews", JInt change);
         ("change_7d_rating", JFloat change_rating)]%string.

(** The value [random.uniform(a, b)] makes of a raw draw. *)
Definition uniform_of_raw (a b : spec_float) (raw : Z) : spec_float :=
  Float64.add a (Float64.mul (Float64.sub b a) (Random.unit_of_raw raw)).

(** The value of [t - timedelta(days=k)] when it does not raise. *)
Definition date_back (t : Calendar.datetime) (k : Z) : Calendar.datetime :=
  let '(y, m, d) := Calendar.ord2ymd (Calendar.toordinal t - k) in
  Calendar.mk_datetime y m d (Calendar.hour t) (Calendar.minute t)
    (Calendar.second t) (Calendar.microsecond t).

(** What the loop of [get_trends] appends for one date, its three draws
    being read from position [pos] of the stream on. *)
Definition trend_entry (date : Calendar.datetime) (raws : nat -> Z) (pos : nat) : json :=
  JDict [("date", JStr (Calendar.strftime_b_d date));
         ("reviews_added", JInt (Random.int_of_raw 30 80 (raws pos)));
         ("reviews_removed", JInt (Random.int_of_raw 0 10 (raws (1 + pos)%nat)));
         ("average_rating",
          JFloat (Float64.round_ndigits
                    (Float64.add 4.3%f64
                       (uniform_of_raw (-0.2)%f64 0.2%f64 (raws (2 + pos)%nat))) 2))]%string.

(** The loop of [get_trends] as a function of the stream: its outcome, and
    the position the stream is left at. *)
Fixpoint trends_run (today : Calendar.datetime) (days : Z) (indices : list Z)
    (trends : list json) (raws : nat -> Z) (pos : nat) : (exn + list json) * nat :=
  match indices with
  | [] => (inr trends, pos)
  | i :: indices' =>
      match Calendar.sub_days today (days - i - 1) with
      | None => (inl OverflowError, pos)
      | Some date =>
          trends_run today days indices' (trends ++ [trend_entry date raws pos])
            raws (3 + pos)
      end
  end.

(** Bounded universal check by halving: [all_in k lo P] tests [P] on the
    [2^k] integers from [lo] on. *)
Fixpoint all_in (k : nat) (lo : Z) (P : Z -> bool) : bool :=
  match k with
  | O => P lo
  | S k' => all_in k' lo P && all_in k' (lo + 2 ^ Z.of_nat k') P
  end.

(** Month lengths and offsets with the leap flag as a parameter. *)
Definition month_length (leap : bool) (m : Z) : Z :=
  if (m =? 2) && leap then 29 else Calendar.index Calendar.DAYS_IN_MONTH m.

Definition month_offset (leap : bool) (m : Z) : Z :=
  Calendar.index Calendar.DAYS_BEFORE_MONTH m + (if (2 <? m) && leap then 1 else 0).

(** The month and day [ord2ymd] computes from the index [n] of a day in
    its year. *)
Definition month_day (n : Z) (leapyear : bool) : Z * Z :=
  let m := Z.shiftr (n + 50) 5 in
  let preceding :=
    Calendar.index Calendar.DAYS_BEFORE_MONTH m + (if (2 <? m) && leapyear then 1 else 0) in
  if n <? preceding then
    (m - 1,
     n - (preceding
          - (Calendar.index Calendar.DAYS_IN_MONTH (m - 1)
             + (if (m - 1 =? 2) && leapyear then 1 else 0))) + 1)
  else (m, n - preceding + 1).

Definition month_day_check (leap : bool) (n : Z) : bool :=
  if 365 <=? n then true
  else
    let '(m, d) := month_day n leap in
    (1 <=? m) && (m <=? 12) && (1 <=? d) && (d <=? month_length leap m)
    && (month_offset leap m + d =? n + 1).

(** The record the rounding functions start from: mantissa [m], nothing
    shifted out yet. *)
Definition exact_record (m : Z) : shr_record :=
  {| shr_m := m; shr_r := false; shr_s := false |}.

(** [2^-52]. *)
Definition eps : Q := 1 # 4503599627370496.

(** [x] is [v] up to a relative error of [2^-52]. *)
Definition close (x v : Q) : Prop :=
  forall B : Q, (- B <= v <= B -> v - eps * B <= x <= v + eps * B)%Q.

(** A zero, or a float with a full 53-bit mantissa and an exponent of
    [[lo, hi]]. *)
Definition regular (lo hi : Z) (x : spec_float) : Prop :=
  match x with
  | S754_zero _ => True
  | S754_finite _ m e => 2 ^ 52 <= Zpos m < 2 ^ 53 /\ lo <= e <= hi
  | _ => False
  end.


(** [lo <= x <= hi] on floats. *)
Definition float_between (lo hi x : spec_float) : bool :=
  Float64.leb lo x && Float64.leb x hi.

(** Check of one two-decimal value [n / 100] against a float interval; the
    values above [nmax] are not looked at. *)
Definition decimal_between (lo hi : spec_float) (nmax n : Z) : bool :=
  if nmax <? n then true
  else float_between lo hi
         (if n =? 0 then S754_zero false else Float64.decimal n 100).

(** What the loop of [get_top_locations] appends for one row and one drawn
    change, and the list it builds over the rows, the draws being read from
    position [pos] of the stream on. *)
Definition top_entry (row : string * string * spec_float * Z) (change : Z) : json :=
  let '(name, city, rating, reviews) := row in
  JDict [("name", JStr ("Law Firm - " +:+ name));
         ("city", JStr (city +:+ ", FL"));
         ("rating", JFloat rating);
         ("total_reviews", JInt reviews);
         ("change", JInt change);
         ("status",
          JStr (if Float64.geb rating 4.5%f64 then "Excellent"
                else if Float64.geb rating 4.0%f64 then "Good"
                else "Monitor"))]%string.

Fixpoint top_entries (rows : list (string * string * spec_float * Z))
    (raws : nat -> Z) (pos : nat) : list json :=
  match rows with
  | [] => []
  | row :: rows' =>
      top_entry row (Random.int_of_raw (-5) 20 (raws pos))
      :: top_entries rows' raws (S pos)
  end.

(** The successful run of the loop of [get_trends]. *)
Fixpoint trend_entries (today : Calendar.datetime) (days : Z) (indices : list Z)
    (raws : nat -> Z) (pos : nat) : list json :=
  match indices with
  | [] => []
  | i :: indices' =>
      trend_entry (date_back today (days - i - 1)) raws pos
      :: trend_entries today days indices' raws (3 + pos)
  end.

(** The dates of the window of [get_trends], oldest first. *)
Definition trend_dates (today : Calendar.datetime) (days : Z) : list Calendar.datetime :=
  map (fun i => date_back today (days - i - 1)) (range days).

(** The alert of [get_recent_alerts]. *)
Definition alert (t : Calendar.datetime) : json :=
  JDict [("date", JStr (Calendar.isoformat t));
         ("location", JStr "Law Firm - Lakeland Branch");
         ("type", JStr "reviews_removed");
         ("message", JStr "8 reviews removed in the last 24 hours")]%string.

(** The status the spec gives a rating. *)
Definition status_of_rating (r : spec_float) : string :=
  if Float64.geb r 4.5%f64 then "Excellent"
  else if Float64.geb r 4.0%f64 && Float64.ltb r 4.5%f64 then "Good"
  else "Monitor".

(** The priority the spec gives a rating and a number of removed reviews. *)
Definition priority_of (r : spec_float) (removed : Z) : string :=
  if (5 <? removed)%Z || Float64.ltb r 3.3%f64 then "Urgent"
  else if Float64.ltb r 3.5%f64 then "High"
  else "Medium".

(** The calls a view function makes to the random source, and the values
    they return: [randint(a, b)] an integer, [random()] a float. *)
Inductive draw_kind : Type :=
| KInt (a b : Z)
| KUnit.

Inductive sampled : Type :=
| SInt (n : Z)
| SUnit (x : spec_float).

Definition sample (k : draw_kind) (raw : Z) : sampled :=
  match k with
  | KInt a b => SInt (Random.int_of_raw a b raw)
  | KUnit => SUnit (Random.unit_of_raw raw)
  end.

(** The values drawn by the calls [ks], made in this order from position
    [pos] of the stream on. *)
Fixpoint samples (ks : list draw_kind) (raws : nat -> Z) (pos : nat) : list sampled :=
  match ks with
  | [] => []
  | k :: ks' => sample k (raws pos) :: samples ks' raws (S pos)
  end.

(** The days of the window [get_trends] gets through before a date leaves
    the calendar (all of them under [clock_ok]). *)
Fixpoint served (today : Calendar.datetime) (days : Z) (indices : list Z) : list Z :=
  match indices with
  | [] => []
  | i :: indices' =>
      match Calendar.sub_days today (days - i - 1) with
      | Some _ => i :: served today days indices'
      | None => []
      end
  end.

(** The calls to the random source a request makes, by route and clock
    reading. *)
Definition plan (r : App.Route) (now : Calendar.datetime) : list draw_kind :=
  match r with
  | App.Metrics =>
      [KInt (-50) 250; KUnit; KInt 0 30; KInt 100 300; KInt 800 1500; KUnit]
  | App.Trends p =>
      let days := default 7 (App.DAYS !! p) in
      flat_map (fun _ => [KInt 30 80; KInt 0 10; KUnit])
        (served now days (range days))
  | App.TopLocations => map (fun _ => KInt (-5) 20) (firstn 10 App.cities)
  | App.RecentAlerts => [KUnit]
  | App.Home | App.AttentionLocations | App.RatingDistribution
  | App.ExportExcel => []
  end.

(** The values a request on route [r] draws in world [w]. *)
Definition drawn (r : App.Route) (w : World) : list sampled :=
  samples (plan r (clock w)) (entropy w) (consumed w).

(** [x] is a float nearest to the decimal [n / d]: the distance is at most
    half a unit of its last bit. *)
Definition nearest_to (x : spec_float) (n d : Z) : bool :=
  match x with
  | S754_finite _ _ e =>
      Qle_bool (Qabs (Float64.to_Q x - (n # Z.to_pos d)) * 2) (Float64.pow2 e)
  | _ => false
  end.

(** The ranges of the three drawn fields of an entry of /api/trends. *)
Definition trend_fields_in_range (e : json) : Prop :=
  exists (added removed : Z) (rating : spec_float),
    field "reviews_added" e = Some (JInt added)
    /\ field "reviews_removed" e = Some (JInt removed)
    /\ field "average_rating" e = Some (JFloat rating)
    /\ 30 <= added <= 80 /\ 0 <= removed <= 10
    /\ float_between 4.1%f64 4.5%f64 rating = true.

(** A world to try the statements on: 4 November 2026, 09:05:07.001234,
    and an arbitrary stream of raw draws. *)
Definition sample_world : World :=
  mk_world (Calendar.mk_datetime 2026 11 4 9 5 7 1234)
    (fun n => Z.of_nat n * 7919 + 13) 0.

(** Another world with the same clock: the random source stands three
    draws further and its raw draws are other numbers, which the calls of
    /api/metrics map to the values they draw in [sample_world]. *)
Definition shifted_world : World :=
  mk_world (clock sample_world)
    (fun n => Z.of_nat (n - 3) * 7919 + 13 + 2 ^ 53 * (301 * 31 * 201 * 701))
    3.

(** A world early in the calendar: 1 March of year 1, the 60th day, from
    which the windows of 1, 7 and 30 days can be served and the window of
    90 days cannot. *)
Definition early_world : World :=
  mk_world (Calendar.mk_datetime 1 3 1 12 0 0 0) (fun n => Z.of_nat n) 0.

(* ===================================================================== *)
(** ** Bounded checks *)
(* ===================================================================== *)

Lemma all_in_spec (k : nat) (lo : Z) (P : Z -> bool) :
  all_in k lo P = true ->
  forall r, lo <= r < lo + 2 ^ Z.of_nat k -> P r = true.
Proof.
  revert lo. induction k as [|k IH]; intros lo H r Hr.
  - cbn in *. assert (r = lo) as -> by lia. exact H.
  - cbn [all_in] in H. apply andb_prop in H as [H1 H2].
    rewrite Nat2Z.inj_succ, Z.pow_succ_r in Hr by lia.
    destruct (Z.lt_ge_cases r (lo + 2 ^ Z.of_nat k)).
    + apply (IH lo H1). lia.
    + apply (IH _ H2). lia.
Qed.

(* ===================================================================== *)
(** ** Facts about the calendar *)
(* ===================================================================== *)

Module CalendarFacts.
Import Calendar.

Lemma days_before_year_succ (y : Z) :
  days_before_year (y + 1)
  = days_before_year y + 365 + (if is_leap y then 1 else 0).
Proof.
  unfold days_before_year, is_leap.
  replace (y + 1 - 1) with y by lia.
  destruct (Z.eqb_spec (y mod 4) 0), (Z.eqb_spec (y mod 100) 0),
    (Z.eqb_spec (y mod 400) 0); cbn [negb andb orb];
    Z.div_mod_to_equations; lia.
Qed.

Lemma days_before_year_mono (y y' : Z) :
  y <= y' -> days_before_year y <= days_before_year y'.
Proof.
  unfold days_before_year. intros H. Z.div_mod_to_equations. lia.
Qed.

Lemma month_day_bound (y m d : Z) :
  1 <= m <= 12 -> 1 <= d <= days_in_month y m ->
  1 <= days_before_month y m + d <= 365 + (if is_leap y then 1 else 0).
Proof.
  intros Hm Hd.
  assert (m = 1 \/ m = 2 \/ m = 3 \/ m = 4 \/ m = 5 \/ m = 6 \/ m = 7
          \/ m = 8 \/ m = 9 \/ m = 10 \/ m = 11 \/ m = 12) as Hcases by lia.
  unfold days_in_month, days_before_month in *.
  destruct (is_leap y);
    destruct Hcases as [-> | [-> | [-> | [-> | [-> | [-> | [-> | [-> | [->
      | [-> | [-> | ->]]]]]]]]]]]; cbv -[Z.add Z.le Z.lt] in *; lia.
Qed.

Lemma toordinal_range (t : datetime) :
  valid t -> 1 <= toordinal t <= MAXORDINAL.
Proof.
  intros (Hy & Hm & Hd & _).
  pose proof (month_day_bound _ _ _ Hm Hd) as Hmd.
  pose proof (days_before_year_succ (year t)) as Hs.
  pose proof (days_before_year_mono 1 (year t) ltac:(lia)) as H1.
  pose proof (days_before_year_mono (year t + 1) 10000 ltac:(lia)) as H2.
  change (days_before_year 1) with 0 in H1.
  change (days_before_year 10000) with 3652059 in H2.
  unfold toordinal, ymd2ord, MAXORDINAL. lia.
Qed.

Lemma sub_days_some (t : datetime) (k : Z) :
  valid t -> 0 <= k < toordinal t ->
  sub_days t k
  = Some (let '(y, m, d) := ord2ymd (toordinal t - k) in
          mk_datetime y m d (hour t) (minute t) (second t) (microsecond t)).
Proof.
  intros Hv Hk. pose proof (toordinal_range t Hv) as Hr.
  unfold sub_days.
  destruct (Z.ltb_spec 0 (toordinal t - k)); [|lia].
  destruct (Z.leb_spec (toordinal t - k) MAXORDINAL); [|lia].
  cbn [andb]. destruct (ord2ymd _) as [[y m] d]. reflexivity.
Qed.




Lemma month_day_checked (leap : bool) :
  all_in 9 0 (month_day_check leap) = true.
Proof. destruct leap; vm_compute; reflexivity. Qed.

Lemma month_day_spec (leap : bool) (n : Z) :
  0 <= n < 365 ->
  let '(m, d) := month_day n leap in
  1 <= m <= 12 /\ 1 <= d <= month_length leap m
  /\ month_offset leap m + d = n + 1.
Proof.
  intros Hn.
  pose proof (all_in_spec 9 0 _ (month_day_checked leap) n ltac:(cbn; lia)) as H.
  unfold month_day_check in H.
  destruct (Z.leb_spec 365 n); [lia|].
  destruct (month_day n leap) as [m d].
  repeat (apply andb_prop in H as [H ?]).
  rewrite ?Z.leb_le, ?Z.eqb_eq in *. lia.
Qed.

Lemma days_before_year_struct (q a b c : Z) :
  0 <= a <= 3 -> 0 <= b <= 24 -> 0 <= c <= 3 ->
  days_before_year (q * 400 + 1 + a * 100 + b * 4 + c)
  = 146097 * q + 36524 * a + 1461 * b + 365 * c.
Proof.
  intros Ha Hb Hc. unfold days_before_year. cbv zeta.
  Z.div_mod_to_equations. lia.
Qed.

Lemma is_leap_struct (q a b c : Z) :
  0 <= a <= 3 -> 0 <= b <= 24 -> 0 <= c <= 3 ->
  is_leap (q * 400 + 1 + a * 100 + b * 4 + c)
  = (c =? 3) && (negb (b =? 24) || (a =? 3)).
Proof.
  intros Ha Hb Hc. unfold is_leap.
  destruct (Z.eqb_spec ((q * 400 + 1 + a * 100 + b * 4 + c) mod 4) 0),
    (Z.eqb_spec ((q * 400 + 1 + a * 100 + b * 4 + c) mod 100) 0),
    (Z.eqb_spec ((q * 400 + 1 + a * 100 + b * 4 + c) mod 400) 0),
    (Z.eqb_spec c 3), (Z.eqb_spec b 24), (Z.eqb_spec a 3);
    cbn [andb orb negb]; try reflexivity; exfalso;
    Z.div_mod_to_equations; lia.
Qed.

Lemma days_in_month_flag (y m : Z) : days_in_month y m = month_length (is_leap y) m.
Proof. reflexivity. Qed.

Lemma days_before_month_flag (y m : Z) :
  days_before_month y m = month_offset (is_leap y) m.
Proof. reflexivity. Qed.

(** The date of an ordinal is a valid date, and it has that ordinal. *)
Lemma ord2ymd_spec (n : Z) :
  1 <= n ->
  let '(y, m, d) := ord2ymd n in
  1 <= y /\ 1 <= m <= 12 /\ 1 <= d <= days_in_month y m /\ ymd2ord y m d = n.
Proof.
  intros Hn. unfold ord2ymd. cbv zeta.
  unfold DI400Y, DI100Y, DI4Y.
  pose proof (Z.div_mod (n - 1) 146097 ltac:(discriminate)) as E400.
  pose proof (Z.mod_pos_bound (n - 1) 146097 eq_refl) as B400.
  set (q := (n - 1) / 146097) in *. set (r400 := (n - 1) mod 146097) in *.
  pose proof (Z.div_mod r400 36524 ltac:(discriminate)) as E100.
  pose proof (Z.mod_pos_bound r400 36524 eq_refl) as B100.
  set (a := r400 / 36524) in *. set (r100 := r400 mod 36524) in *.
  pose proof (Z.div_mod r100 1461 ltac:(discriminate)) as E4.
  pose proof (Z.mod_pos_bound r100 1461 eq_refl) as B4.
  set (b := r100 / 1461) in *. set (r4 := r100 mod 1461) in *.
  pose proof (Z.div_mod r4 365 ltac:(discriminate)) as E1.
  pose proof (Z.mod_pos_bound r4 365 eq_refl) as B1.
  set (c := r4 / 365) in *. set (r1 := r4 mod 365) in *.
  clearbody q r400 a r100 b r4 c r1.
  assert (0 <= q) as Hq by lia.
  assert (0 <= a <= 4) as Ha by lia.
  assert (0 <= b <= 24) as Hb by lia.
  assert (0 <= c <= 4) as Hc by lia.
  destruct (Z.eqb_spec c 4) as [Hc4|Hc4]; [|destruct (Z.eqb_spec a 4) as [Ha4|Ha4]];
    cbn [orb].
  - (* last day of a leap year *)
    assert (a <= 3 /\ b <= 23 /\ r1 = 0) as (Ha3 & Hb3 & Hr1) by lia.
    set (y := q * 400 + 1 + a * 100 + b * 4 + c).
    pose proof (days_before_year_succ (y - 1)) as Hs.
    replace (y - 1 + 1) with y in Hs by lia.
    assert (days_before_year y = n) as Hy.
    { unfold y. rewrite Hc4.
      replace (q * 400 + 1 + a * 100 + b * 4 + 4)
        with (q * 400 + 1 + a * 100 + (b + 1) * 4 + 0) by lia.
      rewrite days_before_year_struct by lia. lia. }
    assert (is_leap (y - 1) = true) as Hl.
    { destruct (is_leap (y - 1)) eqn:El; [reflexivity|].
      exfalso.
      assert (days_before_year (y - 1) = n - 366) as Hy'.
      { unfold y. rewrite Hc4.
        replace (q * 400 + 1 + a * 100 + b * 4 + 4 - 1)
          with (q * 400 + 1 + a * 100 + b * 4 + 3) by lia.
        rewrite days_before_year_struct by lia. lia. }
      lia. }
    rewrite Hl in Hs.
    unfold ymd2ord, days_in_month, days_before_month. rewrite Hl.
    cbv -[Z.add Z.le Z.lt Z.mul Z.sub days_before_year y].
    unfold y in *. lia.
  - (* last day of a 400-year cycle *)
    assert (r100 = 0 /\ b = 0 /\ c = 0 /\ r1 = 0) as (Hr100 & Hb0 & Hc0 & Hr1) by lia.
    set (y := q * 400 + 1 + a * 100 + b * 4 + c).
    pose proof (days_before_year_succ (y - 1)) as Hs.
    replace (y - 1 + 1) with y in Hs by lia.
    assert (days_before_year y = n) as Hy.
    { unfold y. rewrite Ha4, Hb0, Hc0.
      replace (q * 400 + 1 + 4 * 100 + 0 * 4 + 0)
        with ((q + 1) * 400 + 1 + 0 * 100 + 0 * 4 + 0) by lia.
      rewrite days_before_year_struct by lia. lia. }
    assert (is_leap (y - 1) = true) as Hl.
    { destruct (is_leap (y - 1)) eqn:El; [reflexivity|].
      exfalso.
      assert (days_before_year (y - 1) = n - 366) as Hy'.
      { unfold y. rewrite Ha4, Hb0, Hc0.
        replace (q * 400 + 1 + 4 * 100 + 0 * 4 + 0 - 1)
          with (q * 400 + 1 + 3 * 100 + 24 * 4 + 3) by lia.
        rewrite days_before_year_struct by lia. lia. }
      lia. }
    rewrite Hl in Hs.
    unfold ymd2ord, days_in_month, days_before_month. rewrite Hl.
    cbv -[Z.add Z.le Z.lt Z.mul Z.sub days_before_year y].
    unfold y in *. lia.
  - (* any other day *)
    assert (a <= 3 /\ c <= 3) as (Ha3 & Hc3) by lia.
    set (y := q * 400 + 1 + a * 100 + b * 4 + c).
    set (leapyear := (c =? 3) && (negb (b =? 24) || (a =? 3))).
    pose proof (month_day_spec leapyear r1 B1) as Hmd.
    unfold month_day in Hmd. cbv zeta in Hmd.
    assert (is_leap y = leapyear) as Hl
      by (apply is_leap_struct; lia).
    assert (days_before_year y = n - 1 - r1) as Hy
      by (unfold y; rewrite days_before_year_struct by lia; lia).
    destruct (r1 <? _);
      rewrite days_in_month_flag; unfold ymd2ord;
      rewrite days_before_month_flag, Hl, Hy;
      destruct Hmd as (Hm & Hd & Ho);
      (split; [unfold y; lia|]); (split; [exact Hm|]); (split; [exact Hd|]); lia.
Qed.
Lemma ymd2ord_bounds (y m d : Z) :
  1 <= m <= 12 -> 1 <= d <= days_in_month y m ->
  days_before_year y < ymd2ord y m d <= days_before_year (y + 1).
Proof.
  intros Hm Hd. pose proof (month_day_bound y m d Hm Hd).
  rewrite days_before_year_succ. unfold ymd2ord. lia.
Qed.

Ltac month_cases m :=
  let H := fresh in
  assert (m = 1 \/ m = 2 \/ m = 3 \/ m = 4 \/ m = 5 \/ m = 6 \/ m = 7
          \/ m = 8 \/ m = 9 \/ m = 10 \/ m = 11 \/ m = 12) as H by lia;
  destruct H as [-> | [-> | [-> | [-> | [-> | [-> | [-> | [-> | [->
    | [-> | [-> | ->]]]]]]]]]]].

Lemma month_day_inj (leap : bool) (m d m' d' : Z) :
  1 <= m <= 12 -> 1 <= d <= month_length leap m ->
  1 <= m' <= 12 -> 1 <= d' <= month_length leap m' ->
  month_offset leap m + d = month_offset leap m' + d' ->
  m = m' /\ d = d'.
Proof.
  intros Hm Hd Hm' Hd' E.
  destruct leap; month_cases m; month_cases m';
    cbv -[Z.add Z.le Z.lt] in Hd, Hd', E; lia.
Qed.

Lemma ymd2ord_inj (y m d y' m' d' : Z) :
  1 <= m <= 12 -> 1 <= d <= days_in_month y m ->
  1 <= m' <= 12 -> 1 <= d' <= days_in_month y' m' ->
  ymd2ord y m d = ymd2ord y' m' d' ->
  y = y' /\ m = m' /\ d = d'.
Proof.
  intros Hm Hd Hm' Hd' E.
  pose proof (ymd2ord_bounds y m d Hm Hd) as B.
  pose proof (ymd2ord_bounds y' m' d' Hm' Hd') as B'.
  assert (y = y') as <-.
  { destruct (Z.lt_trichotomy y y') as [Hlt | [Heq | Hgt]]; [|exact Heq|].
    - pose proof (days_before_year_mono (y + 1) y' ltac:(lia)). lia.
    - pose proof (days_before_year_mono (y' + 1) y ltac:(lia)). lia. }
  split; [reflexivity|].
  rewrite days_in_month_flag in Hd, Hd'.
  apply (month_day_inj (is_leap y)); try assumption.
  unfold ymd2ord in E. rewrite !days_before_month_flag in E. lia.
Qed.

(** Ordinals and dates are in bijection. *)
Lemma ord2ymd_ymd2ord (y m d : Z) :
  1 <= y -> 1 <= m <= 12 -> 1 <= d <= days_in_month y m ->
  ord2ymd (ymd2ord y m d) = (y, m, d).
Proof.
  intros Hy Hm Hd.
  pose proof (ymd2ord_bounds y m d Hm Hd) as B.
  pose proof (days_before_year_mono 1 y Hy) as B1.
  change (days_before_year 1) with 0 in B1.
  pose proof (ord2ymd_spec (ymd2ord y m d) ltac:(lia)) as S.
  destruct (ord2ymd (ymd2ord y m d)) as [[y' m'] d'].
  destruct S as (Hy' & Hm' & Hd' & E).
  destruct (ymd2ord_inj _ _ _ _ _ _ Hm' Hd' Hm Hd E) as (-> & -> & ->).
  reflexivity.
Qed.

Lemma ord2ymd_year_max (n : Z) :
  1 <= n <= MAXORDINAL -> fst (fst (ord2ymd n)) <= 9999.
Proof.
  intros Hn. pose proof (ord2ymd_spec n ltac:(lia)) as S.
  destruct (ord2ymd n) as [[y m] d]. cbn [fst].
  destruct S as (Hy & Hm & Hd & E).
  pose proof (ymd2ord_bounds y m d Hm Hd) as B.
  destruct (Z.le_gt_cases y 9999) as [|Hgt]; [assumption|exfalso].
  pose proof (days_before_year_mono 10000 y ltac:(lia)) as M.
  change (days_before_year 10000) with 3652059 in M.
  unfold MAXORDINAL in Hn. lia.
Qed.
End CalendarFacts.

(* ===================================================================== *)
(** ** Facts about binary64 arithmetic *)
(* ===================================================================== *)

Module Float64Facts.
Import Float64.

Lemma digits2_pos_bounds (p : positive) :
  2 ^ (Zpos (digits2_pos p) - 1) <= Zpos p < 2 ^ Zpos (digits2_pos p).
Proof.
  induction p as [p IH|p IH|]; cbn [digits2_pos].
  - rewrite Pos2Z.inj_succ.
    replace (Z.succ (Zpos (digits2_pos p)) - 1)
      with (Z.succ (Zpos (digits2_pos p) - 1)) by lia.
    rewrite !Z.pow_succ_r by lia. lia.
  - rewrite Pos2Z.inj_succ.
    replace (Z.succ (Zpos (digits2_pos p)) - 1)
      with (Z.succ (Zpos (digits2_pos p) - 1)) by lia.
    rewrite !Z.pow_succ_r by lia. lia.
  - cbn. lia.
Qed.

Lemma digits2_pos_unique (p : positive) (d : Z) :
  2 ^ (d - 1) <= Zpos p < 2 ^ d -> Zpos (digits2_pos p) = d.
Proof.
  intros [Hlo Hhi]. pose proof (digits2_pos_bounds p) as [Blo Bhi].
  assert (0 < d) as Hd.
  { destruct (Z.lt_ge_cases 0 d); [assumption|].
    assert (2 ^ d <= 2 ^ 0) by (destruct (Z.eq_dec d 0) as [->|]; [lia|rewrite Z.pow_neg_r by lia; cbn; lia]).
    cbn in *. lia. }
  destruct (Z.lt_trichotomy (Zpos (digits2_pos p)) d) as [H | [H | H]]; [|exact H|].
  - assert (2 ^ Zpos (digits2_pos p) <= 2 ^ (d - 1)) by (apply Z.pow_le_mono_r; lia). lia.
  - assert (2 ^ d <= 2 ^ (Zpos (digits2_pos p) - 1)) by (apply Z.pow_le_mono_r; lia). lia.
Qed.

Lemma shr_1_m (r : shr_record) :
  0 <= shr_m r -> shr_m (shr_1 r) = shr_m r / 2.
Proof.
  destruct r as [m b s]. cbn [shr_m]. intros Hm. unfold shr_1.
  destruct m as [|[p|p|]|p]; cbn [shr_m]; try lia;
    try reflexivity; Z.div_mod_to_equations; lia.
Qed.

Lemma pow2_xO (n : positive) : 2 ^ Zpos n~0 = 2 ^ Zpos n * 2 ^ Zpos n.
Proof. rewrite <- Z.pow_add_r by lia. f_equal. lia. Qed.

Lemma pow2_xI (n : positive) : 2 ^ Zpos n~1 = 2 * (2 ^ Zpos n * 2 ^ Zpos n).
Proof.
  rewrite <- Z.pow_add_r, <- Z.pow_succ_r by lia. f_equal. lia.
Qed.

Lemma iter_shr_1_m (n : positive) (r : shr_record) :
  0 <= shr_m r ->
  shr_m (SpecFloat.iter_pos shr_1 n r) = shr_m r / 2 ^ Zpos n.
Proof.
  revert r. induction n as [n IH|n IH|]; intros r Hr; cbn [SpecFloat.iter_pos].
  - assert (0 <= shr_m (shr_1 r)) as H1 by (rewrite shr_1_m by assumption; apply Z.div_pos; lia).
    assert (0 <= shr_m (SpecFloat.iter_pos shr_1 n (shr_1 r))) as H2
      by (rewrite IH by assumption; apply Z.div_pos; lia).
    rewrite IH, IH, shr_1_m by assumption.
    rewrite !Z.div_div by lia. f_equal. rewrite pow2_xI. lia.
  - assert (0 <= shr_m (SpecFloat.iter_pos shr_1 n r)) as H2
      by (rewrite IH by assumption; apply Z.div_pos; lia).
    rewrite IH, IH by assumption.
    rewrite !Z.div_div by lia. f_equal. rewrite pow2_xO. lia.
  - rewrite shr_1_m by assumption. reflexivity.
Qed.

Lemma round_nearest_even_cases (m : Z) (l : location) :
  round_nearest_even m l = m \/ round_nearest_even m l = m + 1.
Proof.
  destruct l as [|[| |]]; cbn; try (left; reflexivity); try (right; reflexivity).
  destruct (Z.even m); [left|right]; reflexivity.
Qed.

Lemma pos_iter_xO (m p : positive) :
  Zpos (Pos.iter xO m p) = Zpos m * 2 ^ Zpos p.
Proof.
  induction p as [|p IH] using Pos.peano_ind.
  - cbn. lia.
  - rewrite Pos.iter_succ, Pos2Z.inj_xO, IH, Pos2Z.inj_succ, Z.pow_succ_r by lia. lia.
Qed.

Lemma shr_fexp_normal (m : positive) (e : Z) :
  -1074 <= Zpos (digits2_pos m) + e - 53 ->
  shr_fexp prec emax (Zpos m) e loc_Exact
  = if Zpos (digits2_pos m) <=? 53 then (exact_record (Zpos m), e)
    else (SpecFloat.iter_pos shr_1 (Z.to_pos (Zpos (digits2_pos m) - 53))
            (exact_record (Zpos m)),
          Zpos (digits2_pos m) + e - 53).
Proof.
  intros Hn. unfold shr_fexp, fexp, emin, prec, emax, shr, Zdigits2.
  cbn [shr_record_of_loc]. fold (exact_record (Zpos m)).
  set (d := Zpos (digits2_pos m)) in *.
  change (3 - 1024 - 53) with (-1074).
  destruct (Z.leb_spec d 53) as [Hd|Hd].
  - destruct (Z.max (d + e - 53) (-1074) - e) eqn:E; try reflexivity. lia.
  - rewrite Z.max_l by lia.
    replace (d + e - 53 - e) with (d - 53) by lia.
    destruct (d - 53) as [|p|p] eqn:E; try lia.
    cbn [Z.to_pos]. f_equal. lia.
Qed.

(** Rounding of [m * 2^e] for a mantissa of at least 53 bits, away from
    overflow and underflow: the result is a float with a 53-bit mantissa
    that is [k] units of [2^(d + e - 53)], where [k] is the mantissa cut to
    its 53 leading bits, or one more. *)
Lemma binary_round_aux_normal (s : bool) (m : positive) (e : Z) :
  53 <= Zpos (digits2_pos m) ->
  -1074 <= Zpos (digits2_pos m) + e - 53 ->
  Zpos (digits2_pos m) + e <= 1023 ->
  exists (m' : positive) (e' : Z),
    binary_round_aux prec emax s (Zpos m) e loc_Exact = S754_finite s m' e'
    /\ 2 ^ 52 <= Zpos m' < 2 ^ 53
    /\ Zpos (digits2_pos m) + e - 53 <= e'
       <= Zpos (digits2_pos m) + e - 52
    /\ (let n := Zpos (digits2_pos m) - 53 in
        let k := Zpos m' * 2 ^ (e' - (e + n)) in
        (k = Zpos m / 2 ^ n \/ k = Zpos m / 2 ^ n + 1)
        /\ (n = 0 -> k = Zpos m)).
Proof.
  intros Hd Hlo Hhi.
  pose proof (digits2_pos_bounds m) as [Blo Bhi].
  set (d := Zpos (digits2_pos m)) in *.
  unfold binary_round_aux. rewrite shr_fexp_normal by (fold d; lia). fold d.
  (* the mantissa cut to 53 bits *)
  assert (exists m1 : positive, exists r1 : shr_record,
             (if d <=? 53 then (exact_record (Zpos m), e)
              else (SpecFloat.iter_pos shr_1 (Z.to_pos (d - 53)) (exact_record (Zpos m)),
                    d + e - 53))
             = (r1, d + e - 53)
             /\ shr_m r1 = Zpos m1 /\ Zpos m1 = Zpos m / 2 ^ (d - 53)
             /\ (d = 53 -> r1 = exact_record (Zpos m)))
    as (m1 & r1 & -> & Hr1 & Hm1 & Hex).
  { assert (0 < 2 ^ (d - 53)) as Hp by (apply Z.pow_pos_nonneg; lia).
    assert (2 ^ 52 <= Zpos m / 2 ^ (d - 53)) as Hq.
    { apply Z.div_le_lower_bound; [lia|].
      rewrite <- Z.pow_add_r by lia.
      replace (d - 53 + 52) with (d - 1) by lia. lia. }
    assert (0 < 2 ^ 52) by (apply Z.pow_pos_nonneg; lia).
    destruct (Zpos m / 2 ^ (d - 53)) as [|m1|] eqn:Em1; try lia.
    exists m1.
    destruct (Z.leb_spec d 53) as [H53|H53].
    - exists (exact_record (Zpos m)).
      assert (d = 53) as Hd53 by lia.
      rewrite Hd53 in Em1. change (2 ^ (53 - 53)) with 1 in Em1.
      rewrite Z.div_1_r in Em1. rewrite <- Em1.
      repeat split; try reflexivity. f_equal. lia.
    - eexists. split; [reflexivity|].
      rewrite iter_shr_1_m by (cbn; lia). cbn [exact_record shr_m].
      rewrite Z2Pos.id by lia. rewrite Em1.
      repeat split; try reflexivity. lia. }
  set (m2 := round_nearest_even (shr_m r1) (loc_of_shr_record r1)).
  assert (2 ^ 52 <= Zpos m1 < 2 ^ 53) as Bm1.
  { rewrite Hm1. split.
    - apply Z.div_le_lower_bound; [apply Z.pow_pos_nonneg; lia|].
      rewrite <- Z.pow_add_r by lia.
      replace (d - 53 + 52) with (d - 1) by lia. lia.
    - apply Z.div_lt_upper_bound; [apply Z.pow_pos_nonneg; lia|].
      rewrite <- Z.pow_add_r by lia.
      replace (d - 53 + 53) with d by lia. lia. }
  assert ((m2 = Zpos m1 \/ m2 = Zpos m1 + 1) /\ (d = 53 -> m2 = Zpos m1))
    as [Hm2 Hm2ex].
  { split.
    - unfold m2. rewrite Hr1. apply round_nearest_even_cases.
    - intros H53. unfold m2. rewrite (Hex H53) in *. cbn in *. lia. }
  clearbody m2.
  assert (0 < 2 ^ 52) by (apply Z.pow_pos_nonneg; lia).
  destruct m2 as [|p2|p2]; try lia.
  destruct (Z.lt_ge_cases (Zpos p2) (2 ^ 53)) as [Hlt|Hge].
  - (* no carry *)
    assert (Zpos (digits2_pos p2) = 53) as Hd2
      by (apply digits2_pos_unique; change (53 - 1) with 52; lia).
    rewrite shr_fexp_normal by lia. rewrite Hd2. cbn [Z.leb Z.compare Pos.compare Pos.compare_cont exact_record shr_m].
    change (53 <=? 53) with true. cbn [exact_record shr_m].
    destruct (Z.leb_spec (d + e - 53) (emax - prec)) as [_|Hov];
      [|unfold emax, prec in Hov; lia].
    exists p2, (d + e - 53).
    replace (d + e - 53 - (e + (d - 53))) with 0 by lia.
    change (2 ^ 0) with 1. rewrite Z.mul_1_r.
    repeat split; try lia.
    intros Hn. rewrite Hm2ex by lia. rewrite Hm1.
    replace (d - 53) with 0 by lia. change (2 ^ 0) with 1. apply Z.div_1_r.
  - (* carry to [2^53] *)
    assert (Zpos p2 = 2 ^ 53) as Hp2 by lia.
    assert (p2 = 9007199254740992%positive) as -> by (change (2 ^ 53) with 9007199254740992 in Hp2; lia).
    rewrite shr_fexp_normal by (cbn; lia).
    change (Zpos (digits2_pos 9007199254740992)) with 54.
    change (54 <=? 53) with false. cbn [Z.to_pos].
    change (SpecFloat.iter_pos shr_1 (Z.to_pos (54 - 53)) (exact_record (Zpos 9007199254740992)))
      with (exact_record (Zpos 4503599627370496)).
    cbn [exact_record shr_m].
    destruct (Z.leb_spec (54 + (d + e - 53) - 53) (emax - prec)) as [_|Hov];
      [|unfold emax, prec in Hov; lia].
    exists 4503599627370496%positive, (54 + (d + e - 53) - 53).
    replace (54 + (d + e - 53) - 53 - (e + (d - 53))) with 1 by lia.
    change (Zpos 4503599627370496 * 2 ^ 1) with (2 ^ 53).
    change (2 ^ 52) with 4503599627370496. change (2 ^ 53) with 9007199254740992 in *.
    repeat split; try lia.
Qed.
Lemma pow2_pos (e : Z) : (0 < pow2 e)%Q.
Proof. apply Qpower_0_lt. reflexivity. Qed.

Lemma pow2_add (a b : Z) : (pow2 (a + b) == pow2 a * pow2 b)%Q.
Proof. apply Qpower_plus. discriminate. Qed.

Lemma pow2_inject (n : Z) : 0 <= n -> (inject_Z (2 ^ n) == pow2 n)%Q.
Proof. intros H. apply (Zpower_Qpower 2 n H). Qed.

Lemma shift_value (M j e : Z) :
  0 <= j -> (inject_Z (M * 2 ^ j) * pow2 e == inject_Z M * pow2 (e + j))%Q.
Proof.
  intros Hj. rewrite inject_Z_mult, pow2_add, (pow2_inject j Hj). ring.
Qed.

Lemma scale_le (X Y : Z) (P : Q) :
  (0 < P)%Q -> X <= Y -> (inject_Z X * P <= inject_Z Y * P)%Q.
Proof.
  intros HP H. apply Qmult_le_compat_r; [|apply Qlt_le_weak; exact HP].
  rewrite <- Zle_Qle. exact H.
Qed.

(** From the integers to the rationals: when [A] is within [|S| / 2^52] of
    [S], the value [A * P] is close to [S * P]. *)
Lemma close_scaled (A S : Z) (P : Q) :
  (0 < P)%Q ->
  Z.abs (A - S) * 2 ^ 52 <= Z.abs S ->
  close (inject_Z A * P) (inject_Z S * P).
Proof.
  intros HP H B [HB1 HB2]. unfold eps.
  change (2 ^ 52) with 4503599627370496 in H.
  assert (inject_Z ((A - S) * 4503599627370496) * P
          == (inject_Z A * P - inject_Z S * P) * (4503599627370496 # 1))%Q as E.
  { unfold Z.sub. rewrite inject_Z_mult, inject_Z_plus, inject_Z_opp.
    change (inject_Z 4503599627370496) with (4503599627370496 # 1). ring. }
  assert (inject_Z ((S - A) * 4503599627370496) * P
          == (inject_Z S * P - inject_Z A * P) * (4503599627370496 # 1))%Q as E'.
  { unfold Z.sub. rewrite inject_Z_mult, inject_Z_plus, inject_Z_opp.
    change (inject_Z 4503599627370496) with (4503599627370496 # 1). ring. }
  destruct (Z.le_gt_cases 0 S) as [HS|HS].
  - pose proof (scale_le ((A - S) * 4503599627370496) S P HP ltac:(lia)) as H1.
    pose proof (scale_le ((S - A) * 4503599627370496) S P HP ltac:(lia)) as H2.
    rewrite E in H1. rewrite E' in H2.
    set (a := (inject_Z A * P)%Q) in *. set (v := (inject_Z S * P)%Q) in *.
    clearbody a v. clear - HB1 HB2 H1 H2. split; lra.
  - pose proof (scale_le ((A - S) * 4503599627370496) (- S) P HP ltac:(lia)) as H1.
    pose proof (scale_le ((S - A) * 4503599627370496) (- S) P HP ltac:(lia)) as H2.
    rewrite E in H1. rewrite E' in H2. rewrite inject_Z_opp in H1, H2.
    assert (- inject_Z S * P == - (inject_Z S * P))%Q as EN by ring.
    rewrite EN in H1, H2. clear EN.
    set (a := (inject_Z A * P)%Q) in *. set (v := (inject_Z S * P)%Q) in *.
    clearbody a v. clear - HB1 HB2 H1 H2. split; lra.
Qed.
Lemma close_eq (x v : Q) : (x == v)%Q -> close x v.
Proof.
  intros E B [H1 H2]. unfold eps. rewrite E.
  assert (0 <= B)%Q by lra. split; lra.
Qed.

Lemma close_proper (x x' v v' : Q) :
  (x == x')%Q -> (v == v')%Q -> close x v -> close x' v'.
Proof.
  intros Ex Ev H B HB. rewrite <- Ex, <- Ev. apply H. rewrite Ev. exact HB.
Qed.

Lemma close_opp (x v : Q) : close x v -> close (- x) (- v).
Proof.
  intros H B [H1 H2]. destruct (H B) as [H3 H4]; [split; lra|]. split; lra.
Qed.

Lemma binary_round_aux_close (s : bool) (m : positive) (e : Z) :
  53 <= Zpos (digits2_pos m) ->
  -1074 <= Zpos (digits2_pos m) + e - 53 ->
  Zpos (digits2_pos m) + e <= 1023 ->
  exists (m' : positive) (e' : Z),
    binary_round_aux prec emax s (Zpos m) e loc_Exact = S754_finite s m' e'
    /\ 2 ^ 52 <= Zpos m' < 2 ^ 53
    /\ Zpos (digits2_pos m) + e - 53 <= e'
       <= Zpos (digits2_pos m) + e - 52
    /\ close (inject_Z (Zpos m') * pow2 e') (inject_Z (Zpos m) * pow2 e)
    /\ (Zpos (digits2_pos m) = 53 ->
        (inject_Z (Zpos m') * pow2 e' == inject_Z (Zpos m) * pow2 e)%Q).
Proof.
  intros Hd Hlo Hhi.
  destruct (binary_round_aux_normal s m e Hd Hlo Hhi)
    as (m' & e' & E & Bm & Be & Hk & Hex).
  pose proof (digits2_pos_bounds m) as [Blo Bhi].
  set (d := Zpos (digits2_pos m)) in *.
  set (n := d - 53) in *. set (k := Zpos m' * 2 ^ (e' - (e + n))) in *.
  exists m', e'. repeat (split; [assumption || lia|]).
  assert (inject_Z (Zpos m') * pow2 e' == inject_Z (k * 2 ^ n) * pow2 e)%Q as Ev.
  { rewrite (shift_value k n e) by (unfold n; lia).
    unfold k. rewrite shift_value by (unfold n; lia).
    replace (e + n + (e' - (e + n))) with e' by lia. reflexivity. }
  split.
  - apply (close_proper (inject_Z (k * 2 ^ n) * pow2 e) _ _ _
             (Qeq_sym _ _ Ev) (Qeq_refl _)).
    apply close_scaled; [apply pow2_pos|].
    assert (0 < 2 ^ n) as Hp by (apply Z.pow_pos_nonneg; unfold n; lia).
    assert (2 ^ n * 2 ^ 52 <= Zpos m) as Hm.
    { rewrite <- Z.pow_add_r by (unfold n; lia).
      replace (n + 52) with (d - 1) by (unfold n; lia). exact Blo. }
    pose proof (Z.div_mod (Zpos m) (2 ^ n) ltac:(lia)) as Ed.
    pose proof (Z.mod_pos_bound (Zpos m) (2 ^ n) Hp) as Bd.
    assert (Z.abs (k * 2 ^ n - Zpos m) <= 2 ^ n) as Hab by nia.
    rewrite (Z.abs_eq (Zpos m)) by lia.
    assert (0 < 2 ^ 52) by (apply Z.pow_pos_nonneg; lia). nia.
  - intros H53. rewrite Ev. rewrite Hex by (unfold n; lia).
    replace n with 0 by (unfold n; lia). change (2 ^ 0) with 1.
    rewrite Z.mul_1_r. reflexivity.
Qed.
Lemma binary_round_close (s : bool) (m : positive) (e : Z) :
  -1074 <= Zpos (digits2_pos m) + e - 53 ->
  Zpos (digits2_pos m) + e <= 1023 ->
  exists (m' : positive) (e' : Z),
    binary_round prec emax s m e = S754_finite s m' e'
    /\ 2 ^ 52 <= Zpos m' < 2 ^ 53
    /\ Zpos (digits2_pos m) + e - 53 <= e'
       <= Zpos (digits2_pos m) + e - 52
    /\ close (inject_Z (Zpos m') * pow2 e') (inject_Z (Zpos m) * pow2 e)
    /\ (Zpos (digits2_pos m) <= 53 ->
        (inject_Z (Zpos m') * pow2 e' == inject_Z (Zpos m) * pow2 e)%Q).
Proof.
  intros Hlo Hhi.
  pose proof (digits2_pos_bounds m) as [Blo Bhi].
  unfold binary_round, shl_align, fexp, emin, prec, emax.
  change (3 - 1024 - 53) with (-1074).
  set (d := Zpos (digits2_pos m)) in *.
  rewrite Z.max_l by lia.
  destruct (d + e - 53 - e) as [|p|p] eqn:Ep.
  - (* exactly 53 bits *)
    destruct (binary_round_aux_close s m e) as (m' & e' & E & Bm & Be & Hc & Hx);
      try (fold d; lia).
    exists m', e'. fold d in Be, Hx.
    split; [exact E|]. split; [exact Bm|]. split; [lia|]. split; [exact Hc|]. intros _. apply Hx. lia.
  - (* more than 53 bits: rounding *)
    destruct (binary_round_aux_close s m e) as (m' & e' & E & Bm & Be & Hc & Hx);
      try (fold d; lia).
    exists m', e'. fold d in Be, Hx.
    split; [exact E|]. split; [exact Bm|]. split; [lia|]. split; [exact Hc|]. intros ?. lia.
  - (* fewer than 53 bits: the mantissa is shifted left, nothing is lost *)
    assert (Zpos (Pos.iter xO m p) = Zpos m * 2 ^ (53 - d)) as Ez
      by (rewrite pos_iter_xO; f_equal; f_equal; lia).
    assert (0 < 2 ^ (53 - d)) as Hp by (apply Z.pow_pos_nonneg; lia).
    assert (Zpos (digits2_pos (Pos.iter xO m p)) = 53) as Hdz.
    { apply digits2_pos_unique. rewrite Ez. change (53 - 1) with 52. split.
      - replace 52 with (d - 1 + (53 - d)) by lia.
        rewrite Z.pow_add_r by lia. nia.
      - replace 53 with (d + (53 - d)) at 2 by lia.
        rewrite Z.pow_add_r by lia. nia. }
    destruct (binary_round_aux_close s (Pos.iter xO m p) (d + e - 53))
      as (m' & e' & E & Bm & Be & Hc & Hx); try (rewrite Hdz; lia).
    rewrite Hdz in Be.
    assert (inject_Z (Zpos (Pos.iter xO m p)) * pow2 (d + e - 53)
            == inject_Z (Zpos m) * pow2 e)%Q as Ev.
    { rewrite Ez, shift_value by lia. replace (d + e - 53 + (53 - d)) with e by lia.
      reflexivity. }
    exists m', e'.
    split; [exact E|]. split; [exact Bm|]. split; [lia|]. split.
    + apply close_eq. rewrite (Hx Hdz). exact Ev.
    + intros _. rewrite (Hx Hdz). exact Ev.
Qed.

(** [binary_normalize] of a non-zero integer [S] scaled by [2^e], away from
    overflow and underflow. *)
Lemma binary_normalize_close (S e : Z) :
  S <> 0 ->
  -1074 <= Zdigits2 S + e - 53 ->
  Zdigits2 S + e <= 1023 ->
  regular (Zdigits2 S + e - 53) (Zdigits2 S + e - 52)
    (binary_normalize prec emax S e false)
  /\ close (to_Q (binary_normalize prec emax S e false)) (inject_Z S * pow2 e)
  /\ (Zdigits2 S <= 53 ->
      (to_Q (binary_normalize prec emax S e false) == inject_Z S * pow2 e)%Q).
Proof.
  intros HS Hlo Hhi. destruct S as [|m|m]; [congruence| |];
    cbn [binary_normalize Zdigits2] in *.
  - destruct (binary_round_close false m e Hlo Hhi)
      as (m' & e' & E & Bm & Be & Hc & Hx).
    rewrite E. cbn [regular to_Q cond_Zopp].
    split; [split; [assumption|lia]|]. split; assumption.
  - destruct (binary_round_close true m e Hlo Hhi)
      as (m2 & e2 & E2 & Bm2 & Be2 & Hc2 & Hx2).
    rewrite E2. cbn [regular to_Q cond_Zopp].
    split; [split; [assumption|lia]|].
    assert (inject_Z (- Zpos m2) * pow2 e2 == - (inject_Z (Zpos m2) * pow2 e2))%Q
      as E1 by (rewrite inject_Z_opp; ring).
    assert (inject_Z (Zneg m) * pow2 e == - (inject_Z (Zpos m) * pow2 e))%Q
      as E3 by (change (Zneg m) with (- Zpos m); rewrite inject_Z_opp; ring).
    split.
    + apply (close_proper _ _ _ _ (Qeq_sym _ _ E1) (Qeq_sym _ _ E3)).
      apply close_opp. exact Hc2.
    + intros Hd. rewrite E1, E3, (Hx2 Hd). reflexivity.
Qed.
Lemma regular_weaken (lo hi lo' hi' : Z) (x : spec_float) :
  lo' <= lo -> hi <= hi' -> regular lo hi x -> regular lo' hi' x.
Proof. destruct x; cbn; intros; try assumption. lia. Qed.

Lemma to_Q_finite (s : bool) (m : positive) (e : Z) :
  (to_Q (S754_finite s m e)
   == (if s then - 1 else 1) * (inject_Z (Zpos m) * pow2 e))%Q.
Proof.
  cbn [to_Q]. destruct s; cbn [cond_Zopp].
  - rewrite inject_Z_opp. ring.
  - ring.
Qed.

Lemma Zdigits2_upper (S D : Z) :
  0 <= D -> Z.abs S < 2 ^ D -> Zdigits2 S <= D.
Proof.
  intros HD H. destruct S as [|m|m]; cbn [Zdigits2]; [exact HD| |];
    cbn [Z.abs] in H; pose proof (digits2_pos_bounds m) as [Blo _];
    (destruct (Z.le_gt_cases (Zpos (digits2_pos m)) D) as [|Hgt]; [assumption|];
     assert (2 ^ D <= 2 ^ (Zpos (digits2_pos m) - 1))
       by (apply Z.pow_le_mono_r; lia); lia).
Qed.

Lemma Zdigits2_lower (S : Z) : S <> 0 -> 1 <= Zdigits2 S.
Proof. destruct S; cbn [Zdigits2]; intros; [congruence|lia|lia]. Qed.

(** The product of two regular floats: regular, and close to the exact
    product. *)
Lemma mul_regular (l1 h1 l2 h2 : Z) (x y : spec_float) :
  regular l1 h1 x -> regular l2 h2 y ->
  -1074 <= l1 + l2 + 52 -> h1 + h2 + 54 <= 971 ->
  regular (l1 + l2 + 52) (h1 + h2 + 54) (mul x y)
  /\ close (to_Q (mul x y)) (to_Q x * to_Q y).
Proof.
  intros Hx Hy Hlo Hhi.
  destruct x as [sx|sx| |sx mx ex], y as [sy|sy| |sy my ey];
    cbn [regular] in Hx, Hy; try contradiction;
    try (split; [exact I|apply close_eq; cbn [mul SFmul to_Q]; ring]).
  destruct Hx as [Bx Ex], Hy as [By Ey].
  unfold mul. cbn [SFmul].
  assert (2 ^ 104 <= Zpos (mx * my) < 2 ^ 106) as Bp.
  { rewrite Pos2Z.inj_mul.
    change (2 ^ 104) with (2 ^ 52 * 2 ^ 52). change (2 ^ 106) with (2 ^ 53 * 2 ^ 53).
    assert (0 < 2 ^ 52) by (apply Z.pow_pos_nonneg; lia). nia. }
  assert (105 <= Zpos (digits2_pos (mx * my)) <= 106) as Bd.
  { pose proof (digits2_pos_bounds (mx * my)) as [Blo Bhi].
    split.
    - destruct (Z.le_gt_cases 105 (Zpos (digits2_pos (mx * my)))) as [|Hlt];
        [assumption|].
      assert (2 ^ Zpos (digits2_pos (mx * my)) <= 2 ^ 104)
        by (apply Z.pow_le_mono_r; lia). lia.
    - destruct (Z.le_gt_cases (Zpos (digits2_pos (mx * my))) 106) as [|Hgt];
        [assumption|].
      assert (2 ^ 106 <= 2 ^ (Zpos (digits2_pos (mx * my)) - 1))
        by (apply Z.pow_le_mono_r; lia). lia. }
  destruct (binary_round_aux_close (xorb sx sy) (mx * my) (ex + ey))
    as (m' & e' & E & Bm & Be & Hc & _); try lia.
  rewrite E. split; [cbn [regular]; split; [assumption|lia]|].
  assert (to_Q (S754_finite sx mx ex) * to_Q (S754_finite sy my ey)
          == (if xorb sx sy then - 1 else 1)
             * (inject_Z (Zpos (mx * my)) * pow2 (ex + ey)))%Q as Ev.
  { rewrite !to_Q_finite, Pos2Z.inj_mul, inject_Z_mult, pow2_add.
    destruct sx, sy; cbn [xorb]; ring. }
  apply (close_proper
           ((if xorb sx sy then - 1 else 1) * (inject_Z (Zpos m') * pow2 e'))
           _ _ _ (Qeq_sym _ _ (to_Q_finite _ _ _)) (Qeq_sym _ _ Ev)).
  destruct (xorb sx sy).
  - apply (close_proper (- (inject_Z (Zpos m') * pow2 e')) _
             (- (inject_Z (Zpos (mx * my)) * pow2 (ex + ey))) _);
      [ring|ring|]. apply close_opp. exact Hc.
  - apply (close_proper (inject_Z (Zpos m') * pow2 e') _
             (inject_Z (Zpos (mx * my)) * pow2 (ex + ey)) _);
      [ring|ring|]. exact Hc.
Qed.
Lemma shl_align_fst (m : positive) (e e0 : Z) :
  e0 <= e -> Zpos (fst (shl_align m e e0)) = Zpos m * 2 ^ (e - e0).
Proof.
  intros H. unfold shl_align.
  destruct (e0 - e) as [|p|p] eqn:E; cbn [fst]; try lia.
  - replace (e - e0) with 0 by lia. change (2 ^ 0) with 1. lia.
  - rewrite pos_iter_xO. f_equal. f_equal. lia.
Qed.

(** The sum of two regular floats: regular, and close to the exact sum. *)
Lemma add_regular (l1 h1 l2 h2 : Z) (x y : spec_float) :
  regular l1 h1 x -> regular l2 h2 y ->
  -1074 <= Z.min l1 l2 - 52 -> Z.max h1 h2 + 54 <= 1023 ->
  regular (Z.min l1 l2 - 52) (Z.max h1 h2 + 2) (add x y)
  /\ close (to_Q (add x y)) (to_Q x + to_Q y).
Proof.
  intros Hx Hy Hlo Hhi.
  destruct x as [sx|sx| |sx mx ex], y as [sy|sy| |sy my ey];
    cbn [regular] in Hx, Hy; try contradiction.
  - split; [destruct sx, sy; exact I|].
    apply close_eq. destruct sx, sy; cbn [add SFadd to_Q]; ring.
  - split; [cbn [add SFadd regular]; lia|].
    apply close_eq. cbn [add SFadd to_Q]. ring.
  - split; [cbn [add SFadd regular]; lia|].
    apply close_eq. cbn [add SFadd to_Q]. ring.
  - destruct Hx as [Bx Ex], Hy as [By Ey].
    unfold add. cbn [SFadd].
    set (ez := Z.min ex ey).
    rewrite !shl_align_fst by (unfold ez; lia).
    set (S := cond_Zopp sx (Zpos mx * 2 ^ (ex - ez))
              + cond_Zopp sy (Zpos my * 2 ^ (ey - ez))).
    assert (inject_Z S * pow2 ez
            == to_Q (S754_finite sx mx ex) + to_Q (S754_finite sy my ey))%Q as Ev.
    { unfold S. rewrite inject_Z_plus, !to_Q_finite.
      assert (forall (s : bool) (M : Z),
                 inject_Z (cond_Zopp s M) == (if s then - 1 else 1) * inject_Z M)%Q
        as Hc by (intros [|] M; cbn [cond_Zopp]; [rewrite inject_Z_opp|]; ring).
      rewrite !Hc, Qmult_plus_distr_l, <- !Qmult_assoc.
      rewrite (shift_value (Zpos mx) (ex - ez) ez) by (unfold ez; lia).
      rewrite (shift_value (Zpos my) (ey - ez) ez) by (unfold ez; lia).
      replace (ez + (ex - ez)) with ex by lia.
      replace (ez + (ey - ez)) with ey by lia. reflexivity. }
    destruct (Z.eq_dec S 0) as [HS0|HS0].
    + rewrite HS0. cbn [binary_normalize regular to_Q]. split; [exact I|].
      apply close_eq. rewrite <- Ev, HS0. ring.
    + assert (0 < 2 ^ 52) by (apply Z.pow_pos_nonneg; lia).
      assert (0 < 2 ^ (ex - ez)) as Px by (apply Z.pow_pos_nonneg; unfold ez; lia).
      assert (0 < 2 ^ (ey - ez)) as Py by (apply Z.pow_pos_nonneg; unfold ez; lia).
      set (D := Z.max ex ey - ez).
      assert (2 ^ (ex - ez) <= 2 ^ D) as Qx
        by (apply Z.pow_le_mono_r; unfold D, ez; lia).
      assert (2 ^ (ey - ez) <= 2 ^ D) as Qy
        by (apply Z.pow_le_mono_r; unfold D, ez; lia).
      assert (Z.abs S < 2 ^ (54 + D)) as BS.
      { rewrite Z.pow_add_r by (unfold D, ez; lia).
        change (2 ^ 54) with (2 * 2 ^ 53).
        assert (Z.abs S <= Zpos mx * 2 ^ (ex - ez) + Zpos my * 2 ^ (ey - ez))
          by (unfold S; destruct sx, sy; cbn [cond_Zopp]; lia).
        nia. }
      pose proof (Zdigits2_upper S (54 + D) ltac:(unfold D, ez; lia) BS) as Dhi.
      pose proof (Zdigits2_lower S HS0) as Dlo.
      destruct (binary_normalize_close S ez HS0) as (Hr & Hc & _);
        try (unfold D, ez in *; lia).
      split.
      * eapply regular_weaken; [| |exact Hr]; unfold D, ez in *; lia.
      * apply (close_proper _ _ _ _ (Qeq_refl _) Ev Hc).
Qed.

(** [random.random()] is a regular float of [[0, 1]]. *)
Lemma unit_of_raw_regular (raw : Z) :
  regular (-105) (-52) (Random.unit_of_raw raw)
  /\ (0 <= to_Q (Random.unit_of_raw raw) <= 1)%Q.
Proof.
  unfold Random.unit_of_raw, ldexp.
  pose proof (Z.mod_pos_bound raw (2 ^ 53) ltac:(lia)) as Hk.
  set (k := raw mod 2 ^ 53) in *. clearbody k.
  destruct (Z.eq_dec k 0) as [->|Hk0].
  - cbn. split; [exact I|]. split; discriminate.
  - pose proof (Zdigits2_lower k Hk0) as Dlo.
    pose proof (Zdigits2_upper k 53 ltac:(lia) ltac:(lia)) as Dhi.
    destruct (binary_normalize_close k (-53) Hk0) as (Hr & _ & Hx); try lia.
    split; [eapply regular_weaken; [| |exact Hr]; lia|].
    rewrite (Hx Dhi).
    change (pow2 (-53)) with (1 # 9007199254740992)%Q.
    change (2 ^ 53) with 9007199254740992 in Hk.
    unfold Qle. cbn [Qnum Qden inject_Z Qmult]. lia.
Qed.

Lemma round_half_even_bounds (q : Q) :
  (inject_Z (round_half_even q) - (1 # 2) <= q
   <= inject_Z (round_half_even q) + (1 # 2))%Q.
Proof.
  unfold round_half_even.
  pose proof (Qfloor_le q) as Hlo. pose proof (Qlt_floor q) as Hhi.
  rewrite inject_Z_plus in Hhi. change (inject_Z 1) with 1%Q in Hhi.
  set (f := Qfloor q) in *. clearbody f.
  destruct (Qcompare (q - inject_Z f) (1 # 2)) eqn:E.
  - apply Qeq_alt in E. destruct (Z.even f).
    + split; lra.
    + rewrite inject_Z_plus. change (inject_Z 1) with 1%Q. split; lra.
  - apply Qlt_alt in E. split; lra.
  - apply Qgt_alt in E. rewrite inject_Z_plus. change (inject_Z 1) with 1%Q.
    split; lra.
Qed.

Lemma round_half_even_range (q : Q) (lo hi : Z) :
  (inject_Z lo - (1 # 2) < q)%Q -> (q < inject_Z hi + (1 # 2))%Q ->
  lo <= round_half_even q <= hi.
Proof.
  intros Hlo Hhi. pose proof (round_half_even_bounds q) as [H1 H2].
  set (n := round_half_even q) in *. clearbody n.
  assert (inject_Z lo < inject_Z n + 1)%Q as A by lra.
  assert (inject_Z n < inject_Z hi + 1)%Q as B by lra.
  change 1%Q with (inject_Z 1) in A, B. rewrite <- inject_Z_plus in A, B.
  rewrite <- Zlt_Qlt in A, B. lia.
Qed.

Lemma average_rating_decimals :
  all_in 5 410 (decimal_between 4.1%f64 4.4%f64 440) = true.
Proof. vm_compute. reflexivity. Qed.

Lemma change_rating_decimals :
  all_in 6 (-30) (decimal_between (-0.3)%f64 0.2%f64 20) = true.
Proof. vm_compute. reflexivity. Qed.

Ltac q_literal c :=
  let v := eval vm_compute in (to_Q c) in
  change (to_Q c) with v in *.

(** [round(base_rating + uniform(-0.2, 0.1), 2)] is one of the two-decimal
    floats from [4.1] to [4.4], whatever the draw. *)
Lemma average_rating_range (raw : Z) :
  exists n : Z,
    410 <= n <= 440
    /\ round_ndigits (add 4.3%f64 (uniform_of_raw (-0.2)%f64 0.1%f64 raw)) 2
       = decimal n 100.
Proof.
  unfold uniform_of_raw.
  destruct (unit_of_raw_regular raw) as (Rr & Br).
  set (r := Random.unit_of_raw raw) in *. clearbody r.
  change (sub 0.1%f64 (-0.2)%f64) with (S754_finite false 5404319552844596 (-54)).
  set (c := S754_finite false 5404319552844596 (-54)).
  destruct (mul_regular (-54) (-54) (-105) (-52) c r) as (Rt & Ct);
    [cbn; lia|exact Rr|lia|lia|].
  set (t := mul c r) in *. clearbody t.
  destruct (add_regular (-55) (-55) (-107 + 0) (-52 + 0) (-0.2)%f64 t) as (Rx & Cx);
    [cbn; lia|eapply regular_weaken; [| |exact Rt]; lia|lia|lia|].
  set (x := add (-0.2)%f64 t) in *. clearbody x.
  destruct (add_regular (-50) (-50) (-159) (-50) 4.3%f64 x) as (Ry & Cy);
    [cbn; lia|eapply regular_weaken; [| |exact Rx]; lia|lia|lia|].
  set (y := add 4.3%f64 x) in *. clearbody y.
  q_literal c. q_literal (-0.2)%f64. q_literal 4.3%f64.
  destruct (Ct 1%Q) as [T1 T2]; [split; lra|].
  destruct (Cx 1%Q) as [X1 X2]; [split; unfold eps in *; lra|].
  destruct (Cy 5%Q) as [Y1 Y2]; [split; unfold eps in *; lra|].
  unfold eps in *.
  destruct y as [sy|sy| |sy my ey]; cbn [regular] in Ry; try contradiction.
  { exfalso. cbn [to_Q] in Y1, Y2. lra. }
  unfold round_ndigits. cbv zeta. change (10 ^ 2) with 100.
  set (q := (to_Q (S754_finite sy my ey) * inject_Z 100)%Q).
  assert (409 + (3 # 4) <= q <= 440 + (1 # 4))%Q as Bq.
  { unfold q. change (inject_Z 100) with 100%Q. split; lra. }
  pose proof (round_half_even_range q 410 440) as Hn.
  change (inject_Z 410) with 410%Q in Hn. change (inject_Z 440) with 440%Q in Hn.
  specialize (Hn ltac:(lra) ltac:(lra)).
  exists (round_half_even q). split; [exact Hn|].
  destruct (Z.eqb_spec (round_half_even q) 0); [lia|reflexivity].
Qed.

(** [round(uniform(-0.3, 0.2), 2)] is a zero or one of the two-decimal
    floats from [-0.3] to [0.2], whatever the draw. *)
Lemma change_rating_range (raw : Z) :
  (exists s : bool,
      round_ndigits (uniform_of_raw (-0.3)%f64 0.2%f64 raw) 2 = S754_zero s)
  \/ (exists n : Z,
         -30 <= n <= 20 /\ n <> 0
         /\ round_ndigits (uniform_of_raw (-0.3)%f64 0.2%f64 raw) 2
            = decimal n 100).
Proof.
  unfold uniform_of_raw.
  destruct (unit_of_raw_regular raw) as (Rr & Br).
  set (r := Random.unit_of_raw raw) in *. clearbody r.
  change (sub 0.2%f64 (-0.3)%f64) with (S754_finite false 4503599627370496 (-53)).
  set (c := S754_finite false 4503599627370496 (-53)).
  destruct (mul_regular (-53) (-53) (-105) (-52) c r) as (Rt & Ct);
    [cbn; lia|exact Rr|lia|lia|].
  set (t := mul c r) in *. clearbody t.
  destruct (add_regular (-54) (-54) (-106 + 0) (-51 + 0) (-0.3)%f64 t) as (Rx & Cx);
    [cbn; lia|eapply regular_weaken; [| |exact Rt]; lia|lia|lia|].
  set (x := add (-0.3)%f64 t) in *. clearbody x.
  q_literal c. q_literal (-0.3)%f64.
  destruct (Ct 1%Q) as [T1 T2]; [split; lra|].
  destruct (Cx 1%Q) as [X1 X2]; [split; unfold eps in *; lra|].
  unfold eps in *.
  destruct x as [sx|sx| |sx mx ex]; cbn [regular] in Rx; try contradiction.
  { left. exists sx. reflexivity. }
  unfold round_ndigits. cbv zeta. change (10 ^ 2) with 100.
  set (q := (to_Q (S754_finite sx mx ex) * inject_Z 100)%Q).
  assert (- (30 + (1 # 4)) <= q <= 20 + (1 # 4))%Q as Bq.
  { unfold q. change (inject_Z 100) with 100%Q. split; lra. }
  pose proof (round_half_even_range q (-30) 20) as Hn.
  change (inject_Z (-30)) with (-30 # 1)%Q in Hn.
  change (inject_Z 20) with 20%Q in Hn.
  specialize (Hn ltac:(lra) ltac:(lra)).
  destruct (Z.eqb_spec (round_half_even q) 0) as [E0|E0].
  - left. exists sx. reflexivity.
  - right. exists (round_half_even q). repeat split; try lia.
Qed.

Lemma average_rating_between (raw : Z) :
  float_between 4.1%f64 4.4%f64
    (round_ndigits (add 4.3%f64 (uniform_of_raw (-0.2)%f64 0.1%f64 raw)) 2)
  = true.
Proof.
  destruct (average_rating_range raw) as (n & Hn & ->).
  pose proof (all_in_spec 5 410 _ average_rating_decimals n ltac:(cbn; lia)) as H.
  unfold decimal_between in H.
  destruct (Z.ltb_spec 440 n); [lia|].
  destruct (Z.eqb_spec n 0); [lia|]. exact H.
Qed.

Lemma change_rating_between (raw : Z) :
  float_between (-0.3)%f64 0.2%f64
    (round_ndigits (uniform_of_raw (-0.3)%f64 0.2%f64 raw) 2)
  = true.
Proof.
  destruct (change_rating_range raw) as [(s & ->) | (n & Hn & Hn0 & ->)].
  - destruct s; reflexivity.
  - pose proof (all_in_spec 6 (-30) _ change_rating_decimals n ltac:(cbn; lia)) as H.
    unfold decimal_between in H.
    destruct (Z.ltb_spec 20 n); [lia|].
    destruct (Z.eqb_spec n 0); [lia|]. exact H.
Qed.

Lemma trend_rating_decimals :
  all_in 6 410 (decimal_between 4.1%f64 4.5%f64 450) = true.
Proof. vm_compute. reflexivity. Qed.

(** [round(4.3 + uniform(-0.2, 0.2), 2)] is one of the two-decimal floats
    from [4.1] to [4.5], whatever the draw. *)
Lemma trend_rating_range (raw : Z) :
  exists n : Z,
    410 <= n <= 450
    /\ round_ndigits (add 4.3%f64 (uniform_of_raw (-0.2)%f64 0.2%f64 raw)) 2
       = decimal n 100.
Proof.
  unfold uniform_of_raw.
  destruct (unit_of_raw_regular raw) as (Rr & Br).
  set (r := Random.unit_of_raw raw) in *. clearbody r.
  change (sub 0.2%f64 (-0.2)%f64) with (S754_finite false 7205759403792794 (-54)).
  set (c := S754_finite false 7205759403792794 (-54)).
  destruct (mul_regular (-54) (-54) (-105) (-52) c r) as (Rt & Ct);
    [cbn; lia|exact Rr|lia|lia|].
  set (t := mul c r) in *. clearbody t.
  destruct (add_regular (-55) (-55) (-107 + 0) (-52 + 0) (-0.2)%f64 t) as (Rx & Cx);
    [cbn; lia|eapply regular_weaken; [| |exact Rt]; lia|lia|lia|].
  set (x := add (-0.2)%f64 t) in *. clearbody x.
  destruct (add_regular (-50) (-50) (-159) (-50) 4.3%f64 x) as (Ry & Cy);
    [cbn; lia|eapply regular_weaken; [| |exact Rx]; lia|lia|lia|].
  set (y := add 4.3%f64 x) in *. clearbody y.
  q_literal c. q_literal (-0.2)%f64. q_literal 4.3%f64.
  destruct (Ct 1%Q) as [T1 T2]; [split; lra|].
  destruct (Cx 1%Q) as [X1 X2]; [split; unfold eps in *; lra|].
  destruct (Cy 5%Q) as [Y1 Y2]; [split; unfold eps in *; lra|].
  unfold eps in *.
  destruct y as [sy|sy| |sy my ey]; cbn [regular] in Ry; try contradiction.
  { exfalso. cbn [to_Q] in Y1, Y2. lra. }
  unfold round_ndigits. cbv zeta. change (10 ^ 2) with 100.
  set (q := (to_Q (S754_finite sy my ey) * inject_Z 100)%Q).
  assert (409 + (3 # 4) <= q <= 450 + (1 # 4))%Q as Bq.
  { unfold q. change (inject_Z 100) with 100%Q. split; lra. }
  pose proof (round_half_even_range q 410 450) as Hn.
  change (inject_Z 410) with 410%Q in Hn. change (inject_Z 450) with 450%Q in Hn.
  specialize (Hn ltac:(lra) ltac:(lra)).
  exists (round_half_even q). split; [exact Hn|].
  destruct (Z.eqb_spec (round_half_even q) 0); [lia|reflexivity].
Qed.

Lemma trend_rating_between (raw : Z) :
  float_between 4.1%f64 4.5%f64
    (round_ndigits (add 4.3%f64 (uniform_of_raw (-0.2)%f64 0.2%f64 raw)) 2)
  = true.
Proof.
  destruct (trend_rating_range raw) as (n & Hn & ->).
  pose proof (all_in_spec 6 410 _ trend_rating_decimals n ltac:(cbn; lia)) as H.
  unfold decimal_between in H.
  destruct (Z.ltb_spec 450 n); [lia|].
  destruct (Z.eqb_spec n 0); [lia|]. exact H.
Qed.

End Float64Facts.

(* ===================================================================== *)
(** ** Runs of the view functions *)
(* ===================================================================== *)

Lemma int_of_raw_range (a b raw : Z) :
  a <= b -> a <= Random.int_of_raw a b raw <= b.
Proof.
  intros H. unfold Random.int_of_raw.
  pose proof (Z.mod_pos_bound raw (b - a + 1) ltac:(lia)). lia.
Qed.

Lemma days_lookup (p : string) :
  default 7 (App.DAYS !! p) = expected_entries p.
Proof.
  unfold expected_entries, App.DAYS.
  destruct (String.eqb_spec p "24h") as [->|H1]; [reflexivity|].
  destruct (String.eqb_spec p "7d") as [->|H2]; [reflexivity|].
  destruct (String.eqb_spec p "30d") as [->|H3]; [reflexivity|].
  destruct (String.eqb_spec p "90d") as [->|H4]; [reflexivity|].
  rewrite !lookup_insert_ne by congruence.
  rewrite lookup_singleton_ne by congruence. reflexivity.
Qed.

Lemma expected_entries_cases (p : string) :
  expected_entries p = 1 \/ expected_entries p = 7
  \/ expected_entries p = 30 \/ expected_entries p = 90.
Proof.
  unfold expected_entries.
  repeat (destruct (String.eqb _ _); [tauto|]). tauto.
Qed.

Lemma get_metrics_run (w : World) :
  App.handle App.Metrics w
  = (Flask.jsonify
       (metrics_dict
          (48532 + Random.int_of_raw (-50) 250 (entropy w (consumed w)))
          (Float64.round_ndigits
             (Float64.add 4.3%f64
                (uniform_of_raw (-0.2)%f64 0.1%f64 (entropy w (1 + consumed w)%nat))) 2)
          (Random.int_of_raw 0 30 (entropy w (2 + consumed w)%nat))
          (Random.int_of_raw 100 300 (entropy w (3 + consumed w)%nat))
          (Random.int_of_raw 800 1500 (entropy w (4 + consumed w)%nat))
          (Float64.round_ndigits
             (uniform_of_raw (-0.3)%f64 0.2%f64 (entropy w (5 + consumed w)%nat)) 2)),
     advance 6 w).
Proof. reflexivity. Qed.

Lemma top_loop_run rows locations w :
  App.top_loop rows locations w
  = (inr (locations ++ top_entries rows (entropy w) (consumed w)),
     advance (length rows) w).
Proof.
  revert locations w. induction rows as [|[[[name city] rating] reviews] rows IH];
    intros locations w.
  - cbn [App.top_loop top_entries length]. rewrite app_nil_r.
    destruct w; reflexivity.
  - cbn [App.top_loop]. unfold mbind at 1. unfold Py_bind at 1.
    change (Random.randint (-5) 20 w)
      with (inr (A := exn) (Random.int_of_raw (-5) 20 (entropy w (consumed w))),
            advance 1 w).
    cbv iota beta. rewrite IH. cbn [top_entries length].
    rewrite <- app_assoc. cbn [app]. f_equal.
    unfold advance. cbn [clock entropy consumed]. f_equal. lia.
Qed.

Lemma get_top_locations_run (w : World) :
  App.handle App.TopLocations w
  = (Flask.jsonify (JList (top_entries App.cities (entropy w) (consumed w))),
     advance 10 w).
Proof.
  unfold App.handle, App.view, App.get_top_locations.
  unfold mbind, Py_bind. rewrite top_loop_run. reflexivity.
Qed.

Lemma get_recent_alerts_run (w : World) :
  App.handle App.RecentAlerts w
  = (Flask.jsonify
       (JList (if Float64.gtb (Random.unit_of_raw (entropy w (consumed w))) 0.7%f64
               then [alert (clock w)] else [])),
     advance 1 w).
Proof.
  cbv [App.handle App.view App.get_recent_alerts mbind Py_bind Random.random
       draw mret Py_ret datetime_now].
  destruct (Float64.gtb _ _); reflexivity.
Qed.

Lemma range_length (n : Z) : length (range n) = Z.to_nat n.
Proof. unfold range. rewrite length_map, length_seq. reflexivity. Qed.

Lemma range_In (n i : Z) : In i (range n) -> 0 <= i < n.
Proof.
  unfold range. rewrite in_map_iff. intros (k & <- & Hk).
  apply in_seq in Hk. lia.
Qed.

Lemma seq_sorted (s k : nat) :
  StronglySorted Z.lt (map Z.of_nat (seq s k)).
Proof.
  revert s. induction k as [|k IH]; intros s; cbn [seq map].
  - apply SSorted_nil.
  - apply SSorted_cons; [apply IH|].
    apply List.Forall_forall. intros x Hx.
    apply in_map_iff in Hx as (j & <- & Hj). apply in_seq in Hj. lia.
Qed.

Lemma sorted_map {A B : Type} (R : A -> A -> Prop) (R' : B -> B -> Prop)
    (f : A -> B) (l : list A) :
  (forall a b, In a l -> In b l -> R a b -> R' (f a) (f b)) ->
  StronglySorted R l -> StronglySorted R' (map f l).
Proof.
  intros Hf Hs. induction Hs as [|a l Hs IH Ha]; cbn [map].
  - apply SSorted_nil.
  - apply SSorted_cons.
    + apply IH. intros x y Hx Hy. apply Hf; right; assumption.
    + apply List.Forall_forall. intros y Hy.
      apply in_map_iff in Hy as (x & <- & Hx).
      apply Hf; [left; reflexivity|right; exact Hx|].
      rewrite List.Forall_forall in Ha. apply Ha. exact Hx.
Qed.

Lemma date_back_spec (t : Calendar.datetime) (k : Z) :
  Calendar.valid t -> 0 <= k < Calendar.toordinal t ->
  Calendar.sub_days t k = Some (date_back t k)
  /\ Calendar.valid (date_back t k)
  /\ Calendar.toordinal (date_back t k) = Calendar.toordinal t - k.
Proof.
  intros Hv Hk.
  pose proof (CalendarFacts.toordinal_range t Hv) as Hr.
  split; [apply CalendarFacts.sub_days_some; assumption|].
  unfold date_back.
  pose proof (CalendarFacts.ord2ymd_spec (Calendar.toordinal t - k) ltac:(lia)) as Hs.
  pose proof (CalendarFacts.ord2ymd_year_max (Calendar.toordinal t - k) ltac:(lia)) as Hy.
  destruct (Calendar.ord2ymd (Calendar.toordinal t - k)) as [[y m] d].
  cbn [fst] in Hy. destruct Hs as (Hy1 & Hm & Hd & Ho).
  destruct Hv as (_ & _ & _ & Hh & Hmi & Hse & Hus).
  split; [|exact Ho].
  unfold Calendar.valid. cbn. repeat split; lia.
Qed.

Lemma date_back_0 (t : Calendar.datetime) :
  Calendar.valid t -> date_back t 0 = t.
Proof.
  intros (Hy & Hm & Hd & _). unfold date_back, Calendar.toordinal.
  rewrite Z.sub_0_r, CalendarFacts.ord2ymd_ymd2ord by lia.
  destruct t; reflexivity.
Qed.

Lemma trends_loop_cons today days i indices trends w date :
  Calendar.sub_days today (days - i - 1) = Some date ->
  App.trends_loop today days (i :: indices) trends w
  = App.trends_loop today days indices
      (trends ++ [trend_entry date (entropy w) (consumed w)]) (advance 3 w).
Proof.
  intros H. cbn [App.trends_loop]. unfold mbind at 1. unfold Py_bind at 1.
  unfold minus_days. rewrite H. reflexivity.
Qed.

Lemma trends_loop_raise today days i indices trends w :
  Calendar.sub_days today (days - i - 1) = None ->
  App.trends_loop today days (i :: indices) trends w = (inl OverflowError, w).
Proof.
  intros H. cbn [App.trends_loop]. unfold mbind at 1. unfold Py_bind at 1.
  unfold minus_days. rewrite H. reflexivity.
Qed.

Lemma trends_loop_run today days indices trends w :
  App.trends_loop today days indices trends w
  = (fst (trends_run today days indices trends (entropy w) (consumed w)),
     mk_world (clock w) (entropy w)
       (snd (trends_run today days indices trends (entropy w) (consumed w)))).
Proof.
  revert trends w. induction indices as [|i indices IH]; intros trends w.
  - destruct w; reflexivity.
  - cbn [trends_run].
    destruct (Calendar.sub_days today (days - i - 1)) as [date|] eqn:E.
    + rewrite (trends_loop_cons _ _ _ _ _ _ _ E), IH. reflexivity.
    + rewrite (trends_loop_raise _ _ _ _ _ _ E). destruct w; reflexivity.
Qed.

Lemma trends_run_ok today days indices trends raws pos :
  Calendar.valid today ->
  (forall i, In i indices -> 0 <= days - i - 1 < Calendar.toordinal today) ->
  trends_run today days indices trends raws pos
  = (inr (trends ++ trend_entries today days indices raws pos),
     (3 * length indices + pos)%nat).
Proof.
  intros Hv. revert trends pos.
  induction indices as [|i indices IH]; intros trends pos Hi.
  - cbn. rewrite app_nil_r. reflexivity.
  - cbn [trends_run trend_entries length].
    destruct (date_back_spec today (days - i - 1) Hv (Hi i (or_introl eq_refl)))
      as (-> & _).
    rewrite IH by (intros j Hj; apply Hi; right; exact Hj).
    rewrite <- app_assoc. cbn [app]. f_equal. lia.
Qed.

Lemma trend_entries_length today days indices raws pos :
  length (trend_entries today days indices raws pos) = length indices.
Proof.
  revert pos. induction indices as [|i indices IH]; intros pos; cbn;
    [reflexivity|]. rewrite IH. reflexivity.
Qed.

Lemma trend_entries_dates today days indices raws pos :
  Forall2 (fun e d => field "date" e = Some (JStr (Calendar.strftime_b_d d)))
    (trend_entries today days indices raws pos)
    (map (fun i => date_back today (days - i - 1)) indices).
Proof.
  revert pos. induction indices as [|i indices IH]; intros pos; cbn [trend_entries map].
  - apply List.Forall2_nil.
  - apply List.Forall2_cons; [reflexivity|apply IH].
Qed.

(** Under a clock every route can be served at, [get_trends] returns the
    entries of the whole window and draws three values per day. *)
Lemma get_trends_run (p : string) (w : World) :
  clock_ok (clock w) ->
  App.handle (App.Trends p) w
  = (Flask.jsonify
       (JList (trend_entries (clock w) (expected_entries p)
                 (range (expected_entries p)) (entropy w) (consumed w))),
     advance (3 * Z.to_nat (expected_entries p)) w).
Proof.
  intros [Hv Ho].
  unfold App.handle, App.view, App.get_trends. rewrite days_lookup.
  unfold mbind at 1. unfold Py_bind at 1. unfold datetime_now.
  unfold mbind at 1. unfold Py_bind at 1.
  rewrite trends_loop_run, trends_run_ok; [|exact Hv|].
  - cbn [fst snd app]. rewrite range_length. reflexivity.
  - intros i Hi. apply range_In in Hi.
    pose proof (expected_entries_cases p). lia.
Qed.

(* ===================================================================== *)
(** ** Sanity checks of the embedding on concrete inputs *)
(* ===================================================================== *)

Example calendar_examples :
  Calendar.ord2ymd (Calendar.ymd2ord 2026 11 4) = (2026, 11, 4)
  /\ Calendar.ymd2ord 1970 1 1 = 719163
  /\ Calendar.ord2ymd 1 = (1, 1, 1)
  /\ Calendar.ord2ymd 3652059 = (9999, 12, 31)
  /\ Calendar.ord2ymd (Calendar.ymd2ord 2024 2 29) = (2024, 2, 29)
  /\ Calendar.ord2ymd (Calendar.ymd2ord 2024 12 31) = (2024, 12, 31)
  /\ Calendar.isoformat (Calendar.mk_datetime 2026 11 4 9 5 7 1234)
     = "2026-11-04T09:05:07.001234"%string
  /\ Calendar.strftime_b_d (Calendar.mk_datetime 2026 11 4 9 5 7 1234)
     = "Nov 04"%string.
Proof. vm_compute. repeat split. Qed.

(** The two date formats of the source: [%Y] does not pad the year,
    [isoformat] does. *)
Example strftime_examples :
  Calendar.strftime_Ymd (Calendar.mk_datetime 2026 11 4 9 5 7 1234)
  = "20261104"%string
  /\ Calendar.strftime_Ymd (Calendar.mk_datetime 999 2 3 0 0 0 0)
     = "9990203"%string
  /\ Calendar.strftime_Ymd (Calendar.mk_datetime 1 1 1 0 0 0 0)
     = "10101"%string
  /\ Calendar.strftime_Ymd (Calendar.mk_datetime 9999 12 31 0 0 0 0)
     = "99991231"%string
  /\ Calendar.isoformat (Calendar.mk_datetime 999 2 3 0 0 0 0)
     = "0999-02-03T00:00:00"%string
  /\ fst (App.handle App.ExportExcel sample_world)
     = Flask.jsonify
         (JDict [("success", JBool true);
                 ("message", JStr "Report generation simulated");
                 ("filename", JStr "review_report_20261104.xlsx")]%string).
Proof. vm_compute. repeat split. Qed.

(** The literals of the source denote the floats Python prints for them:
    [0.45] is [0x1.ccccccccccccdp-2], [0.1 - (-0.2)] is
    [0.30000000000000004] and [0.2 - (-0.3)] is exactly [0.5]. *)
Example float_examples :
  0.45%f64 = S754_finite false 8106479329266893 (-54)
  /\ Float64.sub 0.1%f64 (-0.2)%f64 = S754_finite false 5404319552844596 (-54)
  /\ 0.3%f64 = S754_finite false 5404319552844595 (-54)
  /\ Float64.sub 0.2%f64 (-0.3)%f64 = S754_finite false 4503599627370496 (-53)
  /\ Float64.round_ndigits (S754_finite false 5629499534213120 (-51)) 0
     = S754_finite false 4503599627370496 (-51)
  /\ Float64.round_ndigits (S754_finite false 7881299347898368 (-51)) 0
     = S754_finite false 4503599627370496 (-50)
  /\ Float64.round_ndigits (-0.001)%f64 2 = S754_zero true.
Proof. vm_compute. repeat split. Qed.

(** Every decimal literal of the source is read as a float nearest to it. *)
Example literals_nearest :
  forallb (fun '(n, d) => nearest_to (Float64.decimal n d) n d)
    [(43, 10); (2, 10); (1, 10); (3, 10); (7, 10); (45, 100); (30, 100);
     (15, 100); (7, 100); (3, 100); (48, 10); (47, 10); (46, 10); (45, 10);
     (44, 10); (42, 10); (41, 10); (40, 10); (32, 10); (33, 10); (34, 10);
     (35, 10); (36, 10)]
  = true.
Proof. vm_compute. reflexivity. Qed.

(* ===================================================================== *)
(** ** /api/rating-distribution *)
(* ===================================================================== *)

(** C1. Whatever the request, the response of /api/rating-distribution
    carries the five bucket counts [int(48532 * 0.45)], [int(48532 * 0.30)],
    [int(48532 * 0.15)], [int(48532 * 0.07)] and [int(48532 * 0.03)] under
    the keys [5_star] ... [1_star] (that is 21839, 14559, 7279, 3397 and
    1455, also the floors of the exact percentages), and the five counts sum
    to at most 48532. *)
Theorem rating_distribution_buckets (w : World) :
  exists s5 s4 s3 s2 s1 : Z,
    fst (App.handle App.RatingDistribution w)
    = Flask.jsonify (JDict [("5_star", JInt s5); ("4_star", JInt s4);
                            ("3_star", JInt s3); ("2_star", JInt s2);
                            ("1_star", JInt s1)]%string)
    /\ Float64.trunc (Float64.mul (Float64.of_int 48532) 0.45%f64) = Some s5
    /\ Float64.trunc (Float64.mul (Float64.of_int 48532) 0.30%f64) = Some s4
    /\ Float64.trunc (Float64.mul (Float64.of_int 48532) 0.15%f64) = Some s3
    /\ Float64.trunc (Float64.mul (Float64.of_int 48532) 0.07%f64) = Some s2
    /\ Float64.trunc (Float64.mul (Float64.of_int 48532) 0.03%f64) = Some s1
    /\ [s5; s4; s3; s2; s1] = [21839; 14559; 7279; 3397; 1455]
    /\ [s5; s4; s3; s2; s1]
       = map (fun pct => 48532 * pct / 100) [45; 30; 15; 7; 3]
    /\ s5 + s4 + s3 + s2 + s1 <= 48532.
Proof.
  exists 21839, 14559, 7279, 3397, 1455.
  vm_compute. repeat split; discriminate.
Qed.

(* ===================================================================== *)
(** ** /api/metrics *)
(* ===================================================================== *)

(** C5. Whatever the request and the draws, the response of /api/metrics
    has [total_locations = 120], [total_reviews] in [[48482, 48782]] (48532
    plus a change of [[-50, 250]]), [reviews_removed_today] in [[0, 30]],
    [reviews_added_24h] in [[100, 300]], [change_7d_reviews] in
    [[800, 1500]], [average_rating] in [[4.1, 4.4]] and [change_7d_rating]
    in [[-0.3, 0.2]], the last two as comparisons of floats. *)
Theorem metrics_ranges (w : World) :
  exists (daily total removed added change : Z) (average change_rating : spec_float),
    fst (App.handle App.Metrics w)
    = Flask.jsonify
        (JDict [("total_locations", JInt 120);
                ("total_reviews", JInt total);
                ("average_rating", JFloat average);
                ("reviews_removed_today", JInt removed);
                ("reviews_added_24h", JInt added);
                ("change_7d_reviews", JInt change);
                ("change_7d_rating", JFloat change_rating)]%string)
    /\ total = 48532 + daily /\ -50 <= daily <= 250
    /\ 48482 <= total <= 48782
    /\ 0 <= removed <= 30
    /\ 100 <= added <= 300
    /\ 800 <= change <= 1500
    /\ Float64.leb 4.1%f64 average = true /\ Float64.leb average 4.4%f64 = true
    /\ Float64.leb (-0.3)%f64 change_rating = true
    /\ Float64.leb change_rating 0.2%f64 = true.
Proof.
  rewrite get_metrics_run. cbn [fst]. unfold metrics_dict.
  pose proof (int_of_raw_range (-50) 250 (entropy w (consumed w)) ltac:(lia)).
  pose proof (int_of_raw_range 0 30 (entropy w (2 + consumed w)%nat) ltac:(lia)).
  pose proof (int_of_raw_range 100 300 (entropy w (3 + consumed w)%nat) ltac:(lia)).
  pose proof (int_of_raw_range 800 1500 (entropy w (4 + consumed w)%nat) ltac:(lia)).
  pose proof (Float64Facts.average_rating_between (entropy w (1 + consumed w)%nat)) as Ha.
  pose proof (Float64Facts.change_rating_between (entropy w (5 + consumed w)%nat)) as Hc.
  unfold float_between in Ha, Hc.
  apply andb_prop in Ha as [Ha1 Ha2]. apply andb_prop in Hc as [Hc1 Hc2].
  do 7 eexists. split; [reflexivity|].
  split; [reflexivity|]. repeat (split; [assumption || lia|]). assumption.
Qed.

(* ===================================================================== *)
(** ** /api/locations/top *)
(* ===================================================================== *)

(** C3. Whatever the request and the draws, the response of
    /api/locations/top has at most 10 entries, and the [status] of every
    entry is the one its [rating] gives: [Excellent] from 4.5 up, [Good]
    from 4.0 up and below 4.5, [Monitor] otherwise; so every status is one
    of the three. *)
Theorem top_locations_status (w : World) :
  exists l : list json,
    fst (App.handle App.TopLocations w) = Flask.jsonify (JList l)
    /\ (length l <= 10)%nat
    /\ Forall (fun e =>
         exists (r : spec_float) (st : string),
           field "rating" e = Some (JFloat r)
           /\ field "status" e = Some (JStr st)
           /\ st = status_of_rating r
           /\ (st = "Excellent" \/ st = "Good" \/ st = "Monitor")%string) l.
Proof.
  rewrite get_top_locations_run. cbn [fst].
  eexists. split; [reflexivity|]. split; [cbn; lia|].
  unfold App.cities. cbn [top_entries].
  repeat (apply List.Forall_cons;
          [eexists; eexists; split; [reflexivity|]; split; [reflexivity|];
           split; [reflexivity|]; vm_compute; tauto|]).
  apply List.Forall_nil.
Qed.

(** C10. Whatever the request and the draws, the ratings of the response
    of /api/locations/top never increase along the list, from 4.8 down to
    4.2, every [name] starts with [Law Firm - ] and every [city] ends with
    [, FL]. *)
Theorem top_locations_sorted (w : World) :
  exists (l : list json) (ratings : list spec_float),
    fst (App.handle App.TopLocations w) = Flask.jsonify (JList l)
    /\ Forall2 (fun e r => field "rating" e = Some (JFloat r)) l ratings
    /\ StronglySorted (fun a b => Float64.geb a b = true) ratings
    /\ head ratings = Some 4.8%f64
    /\ last ratings = Some 4.2%f64
    /\ Forall (fun e =>
         exists name city : string,
           field "name" e = Some (JStr ("Law Firm - " +:+ name))
           /\ field "city" e = Some (JStr (city +:+ ", FL"))) l.
Proof.
  rewrite get_top_locations_run. cbn [fst].
  exists (top_entries App.cities (entropy w) (consumed w)).
  exists (map (fun row => snd (fst row)) App.cities).
  split; [reflexivity|].
  unfold App.cities. cbn [top_entries map fst snd].
  split; [repeat (apply List.Forall2_cons; [reflexivity|]); apply List.Forall2_nil|].
  split.
  { repeat (apply SSorted_cons;
            [|repeat (apply List.Forall_cons; [reflexivity|]); apply List.Forall_nil]).
    apply SSorted_nil. }
  split; [reflexivity|]. split; [reflexivity|].
  repeat (apply List.Forall_cons;
          [eexists; eexists; split; [reflexivity|]; reflexivity|]).
  apply List.Forall_nil.
Qed.

(* ===================================================================== *)
(** ** /api/locations/attention *)
(* ===================================================================== *)

(** C7. Whatever the request, the response of /api/locations/attention is
    a list of exactly 5 entries, and the [priority] of every entry follows
    from its [rating] and [reviews_removed]: [Urgent] when more than 5
    reviews were removed or the rating is below 3.3, otherwise [High] when
    the rating is below 3.5, otherwise [Medium]. *)
Theorem attention_priorities (w : World) :
  exists l : list json,
    fst (App.handle App.AttentionLocations w) = Flask.jsonify (JList l)
    /\ length l = 5%nat
    /\ Forall (fun e =>
         exists (r : spec_float) (removed : Z),
           field "rating" e = Some (JFloat r)
           /\ field "reviews_removed" e = Some (JInt removed)
           /\ field "priority" e = Some (JStr (priority_of r removed))) l
    /\ map (field "priority") l
       = map (fun s => Some (JStr s))
           ["Urgent"; "Medium"; "High"; "Medium"; "High"]%string.
Proof.
  eexists. split; [vm_compute; reflexivity|].
  split; [reflexivity|]. split; [|reflexivity].
  repeat (apply List.Forall_cons;
          [eexists; eexists; split; [reflexivity|]; split; reflexivity|]).
  apply List.Forall_nil.
Qed.

(* ===================================================================== *)
(** ** /api/alerts/recent *)
(* ===================================================================== *)

(** C4. Whatever the request and the draw, the response of
    /api/alerts/recent is the empty list, or a list of exactly one alert
    with the fields [date], [location], [type] and [message]; the alert is
    there when the float drawn is above 0.7. *)
Theorem recent_alerts_shape (w : World) :
  let r := Random.unit_of_raw (entropy w (consumed w)) in
  (Float64.gtb r 0.7%f64 = false
   /\ fst (App.handle App.RecentAlerts w) = Flask.jsonify (JList []))
  \/ (Float64.gtb r 0.7%f64 = true
      /\ exists date location type message : string,
           fst (App.handle App.RecentAlerts w)
           = Flask.jsonify
               (JList [JDict [("date", JStr date);
                              ("location", JStr location);
                              ("type", JStr type);
                              ("message", JStr message)]%string])).
Proof.
  cbv zeta. rewrite get_recent_alerts_run. cbn [fst].
  destruct (Float64.gtb _ _).
  - right. split; [reflexivity|]. unfold alert. do 4 eexists. reflexivity.
  - left. split; reflexivity.
Qed.

(* ===================================================================== *)
(** ** /api/trends/<period> *)
(* ===================================================================== *)

Ltac clock_ok_sample :=
  unfold clock_ok, Calendar.valid; repeat split; vm_compute;
  (reflexivity || discriminate).

(** C2. For every period string [p], the response of /api/trends/<p> is a
    list of exactly 1 entry when [p] is [24h], 7 when it is [7d], 30 when it
    is [30d], 90 when it is [90d], and 7 for every other string. *)
Theorem trends_length (p : string) (w : World) :
  clock_ok (clock w) ->
  exists l : list json,
    fst (App.handle (App.Trends p) w) = Flask.jsonify (JList l)
    /\ (p = "24h"%string -> length l = 1%nat)
    /\ (p = "7d"%string -> length l = 7%nat)
    /\ (p = "30d"%string -> length l = 30%nat)
    /\ (p = "90d"%string -> length l = 90%nat)
    /\ (p <> "24h"%string -> p <> "7d"%string -> p <> "30d"%string ->
        p <> "90d"%string -> length l = 7%nat).
Proof.
  intros Hc. rewrite (get_trends_run p w Hc). cbn [fst].
  eexists. split; [reflexivity|].
  rewrite trend_entries_length, range_length. unfold expected_entries.
  repeat split.
  - intros ->. reflexivity.
  - intros ->. reflexivity.
  - intros ->. reflexivity.
  - intros ->. reflexivity.
  - intros H1 H2 H3 H4.
    destruct (String.eqb_spec p "24h"); [contradiction|].
    destruct (String.eqb_spec p "7d"); [contradiction|].
    destruct (String.eqb_spec p "30d"); [contradiction|].
    destruct (String.eqb_spec p "90d"); [contradiction|]. reflexivity.
Qed.

Lemma trends_length_witness :
  clock_ok (clock sample_world)
  /\ exists l : list json,
       fst (App.handle (App.Trends "30d") sample_world) = Flask.jsonify (JList l)
       /\ length l = 30%nat.
Proof.
  assert (clock_ok (clock sample_world)) as Hc by clock_ok_sample.
  split; [exact Hc|].
  destruct (trends_length "30d" sample_world Hc) as (l & E & _ & _ & H30 & _).
  exists l. split; [exact E|]. apply H30. reflexivity.
Defined.

Lemma trend_dates_ordinals (today : Calendar.datetime) (days : Z) (indices : list Z) :
  Calendar.valid today ->
  (forall i, In i indices -> 0 <= days - i - 1 < Calendar.toordinal today) ->
  Forall2 (fun d i =>
             Calendar.valid d
             /\ Calendar.toordinal d = Calendar.toordinal today - (days - i - 1))
    (map (fun i => date_back today (days - i - 1)) indices) indices.
Proof.
  intros Hv. induction indices as [|i indices IH]; intros Hi; cbn [map].
  - apply List.Forall2_nil.
  - apply List.Forall2_cons.
    + apply (date_back_spec today (days - i - 1) Hv). apply Hi. left. reflexivity.
    + apply IH. intros j Hj. apply Hi. right. exact Hj.
Qed.

Lemma range_last {A : Type} (f : Z -> A) (n : Z) :
  1 <= n -> last (map f (range n)) = Some (f (n - 1)).
Proof.
  intros Hn. unfold range.
  replace (Z.to_nat n) with (S (Z.to_nat (n - 1))) by lia.
  rewrite seq_S, !map_app. cbn [map]. rewrite last_snoc.
  f_equal. f_equal. lia.
Qed.

(** C6. For every period and all draws, the entries of /api/trends/<period>
    are dated one per consecutive calendar day in strictly increasing
    order: entry [i] carries the label of the date [days - i - 1] days
    before the request day, and the last entry is dated the request day. *)
Theorem trends_dates_consecutive (p : string) (w : World) :
  clock_ok (clock w) ->
  let days := expected_entries p in
  exists (l : list json) (dates : list Calendar.datetime),
    fst (App.handle (App.Trends p) w) = Flask.jsonify (JList l)
    /\ Forall2 (fun e d => field "date" e = Some (JStr (Calendar.strftime_b_d d)))
         l dates
    /\ Forall2 (fun d i =>
                  Calendar.valid d
                  /\ Calendar.toordinal d
                     = Calendar.toordinal (clock w) - (days - i - 1))
         dates (range days)
    /\ StronglySorted
         (fun a b => Calendar.toordinal a < Calendar.toordinal b) dates
    /\ last dates = Some (clock w).
Proof.
  intros Hc days. rewrite (get_trends_run p w Hc). cbn [fst]. fold days.
  destruct Hc as [Hv Ho].
  assert (forall i, In i (range days) ->
                    0 <= days - i - 1 < Calendar.toordinal (clock w)) as Hi.
  { intros i Hin. apply range_In in Hin.
    pose proof (expected_entries_cases p). unfold days in *. lia. }
  exists (trend_entries (clock w) days (range days) (entropy w) (consumed w)).
  exists (trend_dates (clock w) days). unfold trend_dates.
  split; [reflexivity|].
  split; [apply trend_entries_dates|].
  split; [apply trend_dates_ordinals; assumption|].
  split.
  - apply (sorted_map Z.lt); [|apply seq_sorted].
    intros a b Ha Hb Hab.
    destruct (date_back_spec (clock w) (days - a - 1) Hv (Hi a Ha)) as (_ & _ & ->).
    destruct (date_back_spec (clock w) (days - b - 1) Hv (Hi b Hb)) as (_ & _ & ->).
    lia.
  - rewrite range_last by (pose proof (expected_entries_cases p); unfold days; lia).
    replace (days - (days - 1) - 1) with 0 by lia.
    f_equal. apply date_back_0. exact Hv.
Qed.

Lemma trends_dates_consecutive_witness :
  clock_ok (clock sample_world)
  /\ exists (l : list json) (dates : list Calendar.datetime),
       fst (App.handle (App.Trends "7d") sample_world) = Flask.jsonify (JList l)
       /\ Forall2 (fun e d => field "date" e = Some (JStr (Calendar.strftime_b_d d)))
            l dates
       /\ Forall2 (fun d i =>
                     Calendar.valid d
                     /\ Calendar.toordinal d
                        = Calendar.toordinal (clock sample_world) - (7 - i - 1))
            dates (range 7)
       /\ StronglySorted
            (fun a b => Calendar.toordinal a < Calendar.toordinal b) dates
       /\ last dates = Some (clock sample_world).
Proof.
  assert (clock_ok (clock sample_world)) as Hc by clock_ok_sample.
  split; [exact Hc|].
  exact (trends_dates_consecutive "7d" sample_world Hc).
Defined.

(** The labels of the sample window end on the request day. *)
Example trends_labels_sample :
  match fst (App.handle (App.Trends "7d") sample_world) with
  | Flask.mk_response _ _ (Flask.Json (JList l)) =>
      map (field "date") l
      = map (fun s => Some (JStr s))
          ["Oct 29"; "Oct 30"; "Oct 31"; "Nov 01"; "Nov 02"; "Nov 03"; "Nov 04"]%string
  | _ => False
  end.
Proof. vm_compute. reflexivity. Qed.

(* ===================================================================== *)
(** ** All routes: status, body, and what a response depends on *)
(* ===================================================================== *)

Lemma no_draw_run (r : App.Route) (w : World) :
  r = App.Home \/ r = App.AttentionLocations \/ r = App.RatingDistribution
  \/ r = App.ExportExcel ->
  snd (App.handle r w) = w
  /\ forall w', clock w' = clock w ->
                fst (App.handle r w') = fst (App.handle r w).
Proof.
  intros [-> | [-> | [-> | ->]]]; (split; [reflexivity|]); intros w' E;
    try reflexivity.
  cbv [App.handle App.view App.export_excel mbind Py_bind mret Py_ret
       datetime_now fst]. rewrite E. reflexivity.
Qed.

Lemma advance_0 (w : World) : advance 0 w = w.
Proof. destruct w; reflexivity. Qed.

Lemma top_entries_samples rows raws1 pos1 raws2 pos2 :
  samples (map (fun _ => KInt (-5) 20) rows) raws1 pos1
  = samples (map (fun _ => KInt (-5) 20) rows) raws2 pos2 ->
  top_entries rows raws1 pos1 = top_entries rows raws2 pos2.
Proof.
  revert pos1 pos2. induction rows as [|row rows IH]; intros pos1 pos2 H;
    cbn [map samples top_entries sample] in *; [reflexivity|].
  injection H as H1 H2. rewrite H1, (IH _ _ H2). reflexivity.
Qed.

Lemma trends_run_samples today days indices trends raws1 pos1 raws2 pos2 :
  samples (flat_map (fun _ => [KInt 30 80; KInt 0 10; KUnit])
             (served today days indices)) raws1 pos1
  = samples (flat_map (fun _ => [KInt 30 80; KInt 0 10; KUnit])
               (served today days indices)) raws2 pos2 ->
  fst (trends_run today days indices trends raws1 pos1)
  = fst (trends_run today days indices trends raws2 pos2).
Proof.
  revert trends pos1 pos2.
  induction indices as [|i indices IH]; intros trends pos1 pos2 H;
    cbn [trends_run served] in *; [reflexivity|].
  destruct (Calendar.sub_days today (days - i - 1)) as [date|]; [|reflexivity].
  cbn [flat_map app samples sample] in H.
  injection H as H1 H2 H3 H4.
  unfold trend_entry, uniform_of_raw. cbn [Nat.add].
  rewrite H1, H2, H3. apply IH. exact H4.
Qed.

Lemma trends_run_count today days indices trends raws pos :
  snd (trends_run today days indices trends raws pos)
  = (length (flat_map (fun _ => [KInt 30 80; KInt 0 10; KUnit])
               (served today days indices)) + pos)%nat.
Proof.
  revert trends pos.
  induction indices as [|i indices IH]; intros trends pos;
    cbn [trends_run served]; [reflexivity|].
  destruct (Calendar.sub_days today (days - i - 1)) as [date|]; [|reflexivity].
  rewrite IH. cbn [flat_map app length]. lia.
Qed.

Lemma samples_length ks raws pos : length (samples ks raws pos) = length ks.
Proof.
  revert pos. induction ks as [|k ks IH]; intros pos; cbn; [reflexivity|].
  rewrite IH. reflexivity.
Qed.

(** [get_trends] at any clock reading: the response is made of the outcome
    of the loop, and the stream has moved by the draws of the loop. *)
Lemma get_trends_run_any (p : string) (w : World) :
  let days := default 7 (App.DAYS !! p) in
  let run := trends_run (clock w) days (range days) [] (entropy w) (consumed w) in
  App.handle (App.Trends p) w
  = (match fst run with
     | inr trends => Flask.jsonify (JList trends)
     | inl _ => Flask.internal_server_error
     end,
     mk_world (clock w) (entropy w) (snd run)).
Proof.
  cbv zeta. unfold App.handle, App.view, App.get_trends.
  unfold mbind at 1. unfold Py_bind at 1. unfold datetime_now.
  unfold mbind at 1. unfold Py_bind at 1.
  rewrite trends_loop_run.
  destruct (fst (trends_run _ _ _ _ _ _)); reflexivity.
Qed.

Lemma sub_days_none (t : Calendar.datetime) (k : Z) :
  Calendar.toordinal t <= k -> Calendar.sub_days t k = None.
Proof.
  intros H. unfold Calendar.sub_days.
  destruct (Z.ltb_spec 0 (Calendar.toordinal t - k)); [lia|reflexivity].
Qed.

Lemma range_cons (n : Z) :
  1 <= n -> range n = 0 :: map Z.of_nat (seq 1 (Z.to_nat (n - 1))).
Proof.
  intros H. unfold range.
  replace (Z.to_nat n) with (S (Z.to_nat (n - 1))) by lia. reflexivity.
Qed.

(** [get_trends] when the window of the period fits in the calendar: the
    entries of the whole window, three draws per day. *)
Lemma get_trends_run_window (p : string) (w : World) :
  Calendar.valid (clock w) ->
  expected_entries p <= Calendar.toordinal (clock w) ->
  App.handle (App.Trends p) w
  = (Flask.jsonify
       (JList (trend_entries (clock w) (expected_entries p)
                 (range (expected_entries p)) (entropy w) (consumed w))),
     advance (3 * Z.to_nat (expected_entries p)) w).
Proof.
  intros Hv Ho. pose proof (get_trends_run_any p w) as E. cbv zeta in E.
  rewrite days_lookup in E. rewrite E. clear E.
  rewrite trends_run_ok; [|exact Hv|].
  - cbn [fst snd app]. rewrite range_length. reflexivity.
  - intros i Hi. apply range_In in Hi. lia.
Qed.

(** [get_trends] when the window reaches before the first date of the
    calendar: the first subtraction raises, nothing is drawn, and Flask
    answers with its error page. *)
Lemma get_trends_run_overflow (p : string) (w : World) :
  Calendar.toordinal (clock w) < expected_entries p ->
  App.handle (App.Trends p) w = (Flask.internal_server_error, w).
Proof.
  intros Ho. pose proof (get_trends_run_any p w) as E. cbv zeta in E.
  rewrite days_lookup in E. rewrite E. clear E.
  pose proof (expected_entries_cases p) as Hp.
  rewrite range_cons by lia. cbn [trends_run].
  rewrite sub_days_none by lia. cbn [fst snd].
  destruct w; reflexivity.
Qed.

(** Whatever the clock, a period that is none of the four keys of the dict
    runs the very computation of [7d]. *)
Lemma get_trends_default (p : string) (w : World) :
  p <> "24h"%string -> p <> "7d"%string -> p <> "30d"%string ->
  p <> "90d"%string ->
  App.handle (App.Trends p) w = App.handle (App.Trends "7d") w.
Proof.
  intros H1 H2 H3 H4. rewrite !get_trends_run_any. cbv zeta.
  rewrite !days_lookup.
  assert (expected_entries p = expected_entries "7d") as ->; [|reflexivity].
  unfold expected_entries.
  destruct (String.eqb_spec p "24h"); [contradiction|].
  destruct (String.eqb_spec p "7d"); [contradiction|].
  destruct (String.eqb_spec p "30d"); [contradiction|].
  destruct (String.eqb_spec p "90d"); [contradiction|]. reflexivity.
Qed.

(** At any clock the answer of [get_trends] is a JSON list or the error
    page. *)
Lemma get_trends_answers (p : string) (w : World) :
  (exists l : list json,
      fst (App.handle (App.Trends p) w) = Flask.jsonify (JList l))
  \/ fst (App.handle (App.Trends p) w) = Flask.internal_server_error.
Proof.
  rewrite get_trends_run_any. cbv zeta. cbn [fst].
  destruct (fst (trends_run _ _ _ _ _ _)) as [e|l]; [right|left; exists l];
    reflexivity.
Qed.

(** C9, as stated, fails on its last clause: the random source is state
    shared across requests, and handlers read and write it. A request on
    /api/metrics finds the source at position 0 and leaves it at position
    6; the same request made next, at the same clock reading, reads the
    source there and is given another answer ([total_reviews] is 48752
    where it was 48495). *)
Lemma metrics_moves_random_source :
  ~ (snd (App.handle App.Metrics sample_world) = sample_world)
  /\ ~ (fst (App.handle App.Metrics (snd (App.handle App.Metrics sample_world)))
        = fst (App.handle App.Metrics sample_world))
  /\ consumed sample_world = 0%nat
  /\ snd (App.handle App.Metrics sample_world) = advance 6 sample_world
  /\ fst (App.handle App.Metrics sample_world)
     = Flask.jsonify (metrics_dict 48495 4.1%f64 10 152 944 (-0.3)%f64)
  /\ fst (App.handle App.Metrics (advance 6 sample_world))
     = Flask.jsonify (metrics_dict 48752 4.1%f64 1 230 1491 (-0.3)%f64).
Proof.
  assert (fst (App.handle App.Metrics sample_world)
          = Flask.jsonify (metrics_dict 48495 4.1%f64 10 152 944 (-0.3)%f64))
    as E1 by (vm_compute; reflexivity).
  assert (fst (App.handle App.Metrics (advance 6 sample_world))
          = Flask.jsonify (metrics_dict 48752 4.1%f64 1 230 1491 (-0.3)%f64))
    as E2 by (vm_compute; reflexivity).
  assert (snd (App.handle App.Metrics sample_world) = advance 6 sample_world)
    as E3 by reflexivity.
  split; [|split]; [| |repeat split; assumption].
  - intros H. apply (f_equal consumed) in H. rewrite E3 in H.
    cbn in H. discriminate H.
  - rewrite E3, E1, E2. intros H. apply (f_equal Flask.content) in H.
    cbn [Flask.content Flask.jsonify metrics_dict] in H.
    injection H as H. discriminate H.
Qed.

(** C9, amended. Every handler is a function of its path parameter, the
    clock reading and the values it draws: two runs of a route with the
    same clock reading and the same drawn values give the same response,
    wherever the random source stood. The random source is the one piece
    of state shared across requests that a handler touches: a run reads
    the values at its position and leaves the world as it was but for this
    position, moved past the values drawn. *)
Theorem handlers_deterministic (r : App.Route) (w1 w2 : World) :
  clock w1 = clock w2 ->
  drawn r w1 = drawn r w2 ->
  fst (App.handle r w1) = fst (App.handle r w2)
  /\ snd (App.handle r w1) = advance (length (drawn r w1)) w1
  /\ snd (App.handle r w2) = advance (length (drawn r w2)) w2.
Proof.
  intros Hc Hd.
  assert (r = App.Home \/ r = App.AttentionLocations
          \/ r = App.RatingDistribution \/ r = App.ExportExcel
          \/ r = App.Metrics \/ r = App.TopLocations \/ r = App.RecentAlerts
          \/ exists p, r = App.Trends p) as Hr
    by (destruct r; eauto 10).
  destruct Hr as [H | [H | [H | [H | [-> | [-> | [-> | [p ->]]]]]]]].
  1-4: (destruct (no_draw_run r w1) as [S1 _]; [tauto|];
        destruct (no_draw_run r w2) as [S2 F2]; [tauto|];
        rewrite S1, S2, (F2 w1 Hc);
        subst r; cbn [drawn plan samples length]; rewrite !advance_0;
        repeat split).
  - (* /api/metrics *)
    rewrite !get_metrics_run. cbn [fst snd].
    unfold drawn in *. cbn [plan samples sample length Nat.add] in *.
    injection Hd as H1 H2 H3 H4 H5 H6.
    unfold uniform_of_raw. cbn [Nat.add].
    rewrite H1, H2, H3, H4, H5, H6. repeat split.
  - (* /api/locations/top *)
    rewrite !get_top_locations_run. cbn [fst snd].
    unfold drawn in *. cbn [plan] in *. rewrite !samples_length.
    change (firstn 10 App.cities) with App.cities in *.
    rewrite (top_entries_samples _ _ _ _ _ Hd). repeat split.
  - (* /api/alerts/recent *)
    rewrite !get_recent_alerts_run. cbn [fst snd].
    unfold drawn in *. cbn [plan samples sample length] in *.
    injection Hd as H1. rewrite H1, Hc. repeat split.
  - (* /api/trends/<period> *)
    rewrite !get_trends_run_any. cbn [fst snd].
    unfold drawn in *. cbn [plan] in *. rewrite !samples_length.
    rewrite !trends_run_count. rewrite <- Hc in *.
    rewrite (trends_run_samples _ _ _ _ _ _ _ _ Hd).
    repeat split. unfold advance. rewrite Hc. reflexivity.
Qed.

Lemma handlers_deterministic_witness :
  clock sample_world = clock shifted_world
  /\ drawn App.Metrics sample_world = drawn App.Metrics shifted_world
  /\ entropy sample_world 0%nat <> entropy shifted_world 3%nat
  /\ fst (App.handle App.Metrics sample_world)
     = fst (App.handle App.Metrics shifted_world).
Proof.
  assert (drawn App.Metrics sample_world = drawn App.Metrics shifted_world)
    as Hd by (vm_compute; reflexivity).
  split; [reflexivity|]. split; [exact Hd|].
  split; [vm_compute; discriminate|].
  exact (proj1 (handlers_deterministic App.Metrics sample_world shifted_world
                  eq_refl Hd)).
Defined.

(** C8, as stated, fails on the route [/]: its body is an HTML page, not
    JSON. *)
Lemma home_is_not_json :
  ~ (Flask.status (fst (App.handle App.Home sample_world)) = 200
     /\ Flask.is_json (fst (App.handle App.Home sample_world)) = true).
Proof. intros [_ H]. vm_compute in H. discriminate H. Qed.

(** C8, amended. A request on a route other than /api/trends/<period> is
    answered with status 200, whatever the clock and the draws. A request
    on /api/trends/<period>, at a valid clock reading, is answered with
    status 200 when the date of the clock is at least as many days into the
    calendar as the period has (1, 7, 30 or 90, and 7 for any other
    string), and with status 500 otherwise; the former is the case of every
    date from the 90th day of the calendar on. The body of [/] is the HTML
    landing page; the body of every other route answered with status 200 is
    JSON; and a period that is none of [24h], [7d], [30d], [90d] is
    answered as [7d] is. *)
Theorem routes_status_200 (r : App.Route) (w : World) :
  ((forall p : string, r <> App.Trends p) ->
   Flask.status (fst (App.handle r w)) = 200)
  /\ (forall p : string,
        r = App.Trends p -> Calendar.valid (clock w) ->
        (expected_entries p <= Calendar.toordinal (clock w) ->
         Flask.status (fst (App.handle r w)) = 200)
        /\ (Calendar.toordinal (clock w) < expected_entries p ->
            Flask.status (fst (App.handle r w)) = 500))
  /\ (clock_ok (clock w) -> Flask.status (fst (App.handle r w)) = 200)
  /\ (r = App.Home ->
      fst (App.handle r w)
      = Flask.mk_response 200 "text/html" (Flask.Html App.home_page))
  /\ (r <> App.Home ->
      Flask.status (fst (App.handle r w)) = 200 ->
      Flask.mimetype (fst (App.handle r w)) = "application/json"%string
      /\ Flask.is_json (fst (App.handle r w)) = true)
  /\ (forall p : string,
        r = App.Trends p ->
        p <> "24h"%string -> p <> "7d"%string -> p <> "30d"%string ->
        p <> "90d"%string ->
        fst (App.handle r w) = fst (App.handle (App.Trends "7d") w)).
Proof.
  destruct r as [| |p| | | | |].
  3: { (* /api/trends/<period> *)
    split; [intros H; destruct (H p eq_refl)|].
    split.
    { intros q [= <-] Hv. split; intros Ho.
      - rewrite (get_trends_run_window p w Hv Ho). reflexivity.
      - rewrite (get_trends_run_overflow p w Ho). reflexivity. }
    split; [intros Hc; rewrite (get_trends_run p w Hc); reflexivity|].
    split; [discriminate|].
    split.
    { intros _ Hs.
      destruct (get_trends_answers p w) as [[l E]|E]; rewrite E in *;
        [split; reflexivity|discriminate Hs]. }
    intros q [= <-] H1 H2 H3 H4.
    rewrite (get_trends_default p w H1 H2 H3 H4). reflexivity. }
  all: try rewrite get_metrics_run; try rewrite get_top_locations_run;
    try rewrite get_recent_alerts_run;
    (split; [intros _; reflexivity|]);
    (split; [intros q Hq; discriminate Hq|]);
    (split; [intros _; reflexivity|]);
    (split; [intros H; (reflexivity || discriminate H)|]);
    (split; [intros H _; (split; reflexivity) || (destruct (H eq_refl))|]);
    intros q Hq; discriminate Hq.
Qed.

Lemma routes_status_200_witness :
  Calendar.valid (clock early_world)
  /\ Calendar.toordinal (clock early_world) = 60
  /\ Flask.status (fst (App.handle (App.Trends "30d") early_world)) = 200
  /\ Flask.is_json (fst (App.handle (App.Trends "30d") early_world)) = true
  /\ Flask.status (fst (App.handle (App.Trends "90d") early_world)) = 500
  /\ Flask.status (fst (App.handle App.Metrics early_world)) = 200
  /\ fst (App.handle (App.Trends "weekly") early_world)
     = fst (App.handle (App.Trends "7d") early_world).
Proof.
  assert (Calendar.valid (clock early_world)) as Hv
    by (unfold Calendar.valid; repeat split; vm_compute;
        (reflexivity || discriminate)).
  assert (Calendar.toordinal (clock early_world) = 60) as Ho by reflexivity.
  split; [exact Hv|]. split; [exact Ho|].
  destruct (routes_status_200 (App.Trends "30d") early_world)
    as (_ & H30 & _ & _ & J30 & _).
  destruct (routes_status_200 (App.Trends "90d") early_world)
    as (_ & H90 & _).
  destruct (routes_status_200 App.Metrics early_world) as (Hm & _).
  destruct (routes_status_200 (App.Trends "weekly") early_world)
    as (_ & _ & _ & _ & _ & Hw).
  assert (Flask.status (fst (App.handle (App.Trends "30d") early_world)) = 200)
    as S30.
  { apply (H30 "30d"%string eq_refl Hv). rewrite Ho. vm_compute. discriminate. }
  split; [exact S30|].
  split; [apply J30; [discriminate|exact S30]|].
  split.
  { apply (H90 "90d"%string eq_refl Hv). rewrite Ho. vm_compute. reflexivity. }
  split; [apply Hm; intros p; discriminate|].
  apply (Hw "weekly"%string); [reflexivity|discriminate..].
Defined.

(** Why the clock matters: on the first day of the calendar the 7-day
    window reaches before it, the subtraction raises, and the request is
    answered with status 500. *)
Example trends_at_first_day :
  Flask.status
    (fst (App.handle (App.Trends "7d")
            (mk_world (Calendar.mk_datetime 1 1 1 0 0 0 0) (fun _ => 0) 0)))
  = 500.
Proof. vm_compute. reflexivity. Qed.

(* ===================================================================== *)
(** ** Further properties of the responses *)
(* ===================================================================== *)

Lemma trend_entry_ranges date raws pos :
  trend_fields_in_range (trend_entry date raws pos).
Proof.
  do 3 eexists. split; [reflexivity|]. split; [reflexivity|].
  split; [reflexivity|].
  split; [apply int_of_raw_range; lia|].
  split; [apply int_of_raw_range; lia|].
  apply Float64Facts.trend_rating_between.
Qed.

(** The loop of [get_trends] appends entries within the ranges only,
    whether or not it gets through the window. *)
Lemma trends_run_ranges today days indices trends raws pos (l : list json) :
  Forall trend_fields_in_range trends ->
  fst (trends_run today days indices trends raws pos) = inr l ->
  Forall trend_fields_in_range l.
Proof.
  revert trends pos. induction indices as [|i indices IH]; intros trends pos Ht;
    cbn [trends_run].
  - cbn [fst]. intros [= <-]. exact Ht.
  - destruct (Calendar.sub_days today (days - i - 1)) as [date|];
      [|discriminate].
    apply IH. apply Forall_app_2; [exact Ht|].
    apply List.Forall_cons; [apply trend_entry_ranges|apply List.Forall_nil].
Qed.

(** Whatever the period, the clock reading and the draws, the answer
    of /api/trends/<period> is the error page or a JSON list whose every
    entry has [reviews_added] in [[30, 80]], [reviews_removed] in
    [[0, 10]] and [average_rating] in [[4.1, 4.5]]; it is such a list, of
    one entry per day of the period, at every valid clock reading whose
    date is at least as many days into the calendar as the period has. *)
Theorem trends_entry_ranges (p : string) (w : World) :
  ((exists l : list json,
       fst (App.handle (App.Trends p) w) = Flask.jsonify (JList l)
       /\ Forall trend_fields_in_range l)
   \/ fst (App.handle (App.Trends p) w) = Flask.internal_server_error)
  /\ (Calendar.valid (clock w) ->
      expected_entries p <= Calendar.toordinal (clock w) ->
      exists l : list json,
        fst (App.handle (App.Trends p) w) = Flask.jsonify (JList l)
        /\ length l = Z.to_nat (expected_entries p)
        /\ Forall trend_fields_in_range l).
Proof.
  assert ((exists l : list json,
              fst (App.handle (App.Trends p) w) = Flask.jsonify (JList l)
              /\ Forall trend_fields_in_range l)
          \/ fst (App.handle (App.Trends p) w) = Flask.internal_server_error)
    as H.
  { rewrite get_trends_run_any. cbv zeta. cbn [fst].
    destruct (fst (trends_run _ _ _ _ _ _)) as [e|l] eqn:E; [right; reflexivity|].
    left. exists l. split; [reflexivity|].
    apply (trends_run_ranges _ _ _ _ _ _ l (List.Forall_nil _) E). }
  split; [exact H|]. intros Hv Ho.
  destruct H as [(l & E & Hl)|E].
  - exists l. split; [exact E|]. split; [|exact Hl].
    rewrite (get_trends_run_window p w Hv Ho) in E. cbn [fst] in E.
    injection E as <-. rewrite trend_entries_length, range_length. reflexivity.
  - rewrite (get_trends_run_window p w Hv Ho) in E. discriminate E.
Qed.

Lemma trends_entry_ranges_witness :
  Calendar.valid (clock early_world)
  /\ expected_entries "30d" <= Calendar.toordinal (clock early_world)
  /\ exists l : list json,
       fst (App.handle (App.Trends "30d") early_world) = Flask.jsonify (JList l)
       /\ length l = 30%nat
       /\ Forall trend_fields_in_range l.
Proof.
  assert (Calendar.valid (clock early_world)) as Hv
    by (unfold Calendar.valid; repeat split; vm_compute;
        (reflexivity || discriminate)).
  assert (expected_entries "30d" <= Calendar.toordinal (clock early_world))
    as Ho by (vm_compute; discriminate).
  split; [exact Hv|]. split; [exact Ho|].
  exact (proj2 (trends_entry_ranges "30d" early_world) Hv Ho).
Defined.

Lemma top_entries_changes rows raws pos :
  Forall (fun e => exists change : Z,
                     field "change" e = Some (JInt change) /\ -5 <= change <= 20)
    (top_entries rows raws pos).
Proof.
  revert pos. induction rows as [|[[[name city] rating] reviews] rows IH];
    intros pos; cbn [top_entries]; [apply List.Forall_nil|].
  apply List.Forall_cons; [|apply IH].
  eexists. split; [reflexivity|]. apply int_of_raw_range. lia.
Qed.

(** The response of /api/locations/top has exactly 10 entries, and the
    [change] of every entry is in [[-5, 20]], whatever the draws. *)
Theorem top_locations_changes (w : World) :
  exists l : list json,
    fst (App.handle App.TopLocations w) = Flask.jsonify (JList l)
    /\ length l = 10%nat
    /\ Forall (fun e => exists change : Z,
                          field "change" e = Some (JInt change)
                          /\ -5 <= change <= 20) l.
Proof.
  rewrite get_top_locations_run. cbn [fst].
  eexists. split; [reflexivity|]. split; [reflexivity|].
  apply top_entries_changes.
Qed.
